(** * Access-key handlers of [api/projects/keys.go]

    A shallow embedding of the HTTP handlers [AddKey], [UpdateKey] and
    [RemoveKey].  A handler is a function from the store's state to an
    outcome: how control left the handler, the store's final state and the
    ordered trace of everything the handler did to its collaborators (store
    calls with the value they returned, response writes, log lines). *)

From Stdlib Require Import Ascii String List ZArith Bool Lia.
Import ListNotations.
Local Open Scope string_scope.
Local Open Scope Z_scope.

(** ** Package [db]: the structs and errors the handlers use *)

Module db.

(** Modelled from the spec: [db.ErrInvalidOperation] and the other store
    errors are declared in package [db]; the handlers only compare an error
    with the sentinel [ErrInvalidOperation] and pass any other one on. *)
Inductive error : Type :=
| ErrInvalidOperation
| ErrNotFound
| ErrOther (msg : string).

Definition error_eqb (a b : error) : bool :=
  match a, b with
  | ErrInvalidOperation, ErrInvalidOperation => true
  | ErrNotFound, ErrNotFound => true
  | ErrOther m, ErrOther n => String.eqb m n
  | _, _ => false
  end.

(** A Go pair [(value, err)]: the value is only meaningful when [err] is
    [nil]. *)
Inductive result (A : Type) : Type :=
| Ok (a : A)
| Err (e : error).
Arguments Ok {A} a.
Arguments Err {A} e.

Module Project.
(** Modelled from the spec: [db.Project] is declared in package [db]; the
    handlers read its [ID] only. *)
Record t : Type := mk { ID : Z; Name : string }.
End Project.

Module AccessKey.
(** Modelled from the spec: [db.AccessKey] is declared in package [db].
    [ProjectID] and [Secret] are Go pointers ([*int], [*string]): [None]
    is the nil pointer.  The field [Type] is spelt [Type_]. *)
Record t : Type := mk {
  ID : Z;
  Name : string;
  Type_ : string;
  ProjectID : option Z;
  Secret : option string;
  Removed : bool
}.

Definition with_Secret (k : t) (s : option string) : t :=
  mk (ID k) (Name k) (Type_ k) (ProjectID k) s (Removed k).

Definition with_ID (k : t) (id : Z) : t :=
  mk id (Name k) (Type_ k) (ProjectID k) (Secret k) (Removed k).

Definition with_Removed (k : t) (b : bool) : t :=
  mk (ID k) (Name k) (Type_ k) (ProjectID k) (Secret k) b.
End AccessKey.

Module Event.
(** Modelled from the spec: [db.Event] is declared in package [db]; every
    field the handlers set is a pointer. *)
Record t : Type := mk {
  ProjectID : option Z;
  ObjectType : option string;
  ObjectID : option Z;
  Description : option string
}.
End Event.

(** The [db.Store] interface, over an abstract store state [S].  A method
    returns what the Go method returns together with the next state. *)
Class Store (S : Type) : Type := {
  CreateAccessKey : AccessKey.t -> S -> result AccessKey.t * S;
  UpdateAccessKey : AccessKey.t -> S -> option error * S;
  DeleteAccessKeySoft : Z -> Z -> S -> option error * S;
  DeleteAccessKey : Z -> Z -> S -> option error * S;
  CreateEvent : Event.t -> S -> result Event.t * S
}.

End db.

(** ** Package [net/http] and the request *)

Module http.
Definition StatusNoContent : Z := 204.
Definition StatusBadRequest : Z := 400.
Definition StatusOK : Z := 200.

(** [url.Values]: a map from a parameter's name to its values. *)
Definition Values : Type := list (string * list string).

Fixpoint lookup (v : Values) (key : string) : list string :=
  match v with
  | [] => []
  | (k, vs) :: rest => if String.eqb k key then vs else lookup rest key
  end.

(** [Values.Get]: the first value of the parameter, the empty string when
    there is none. *)
Definition Get (v : Values) (key : string) : string :=
  match lookup v key with
  | [] => ""
  | x :: _ => x
  end.

(** What a handler reads of [*http.Request]: the two context entries the
    middleware may have set, the JSON body as [helpers.Bind] decodes it
    ([None] when it does not decode) and the URL's query. *)
Record Request : Type := mkRequest {
  ctx_project : option db.Project.t;
  ctx_accessKey : option db.AccessKey.t;
  body : option db.AccessKey.t;
  query : Values
}.
End http.

(** ** Effects of a handler *)

(** A JSON value of a [map[string]string] or [map[string]interface{}]
    response body. *)
Inductive jvalue : Type :=
| JString (s : string)
| JBool (b : bool).

Inductive effect : Type :=
| StoreCreateAccessKey (key : db.AccessKey.t) (res : db.result db.AccessKey.t)
| StoreUpdateAccessKey (key : db.AccessKey.t) (err : option db.error)
| StoreDeleteAccessKeySoft (projectID keyID : Z) (err : option db.error)
| StoreDeleteAccessKey (projectID keyID : Z) (err : option db.error)
| StoreCreateEvent (ev : db.Event.t) (res : db.result db.Event.t)
| BindFailed
| WriteJSON (code : Z) (body : list (string * jvalue))
| WriteError (err : db.error)
| WriteHeader (code : Z)
| LogError (err : db.error).

(** An effect that reaches the store. *)
Definition is_store_call (e : effect) : bool :=
  match e with
  | StoreCreateAccessKey _ _ | StoreUpdateAccessKey _ _
  | StoreDeleteAccessKeySoft _ _ _ | StoreDeleteAccessKey _ _ _
  | StoreCreateEvent _ _ => true
  | _ => false
  end.

(** An effect that writes to the [http.ResponseWriter]. *)
Definition is_response (e : effect) : bool :=
  match e with
  | BindFailed | WriteJSON _ _ | WriteError _ | WriteHeader _ => true
  | _ => false
  end.

Definition no_store_call (t : list effect) : bool :=
  forallb (fun e => negb (is_store_call e)) t.

Definition no_response (t : list effect) : bool :=
  forallb (fun e => negb (is_response e)) t.

(** How control leaves a statement. *)
Inductive flow (A : Type) : Type :=
| Next (a : A)     (* falls through to the next statement *)
| Returned         (* a [return] statement ended the handler *)
| Panicked.        (* nil dereference or failed type assertion *)
Arguments Next {A} a.
Arguments Returned {A}.
Arguments Panicked {A}.

Record outcome (S A : Type) : Type := mkOutcome {
  flow_of : flow A;
  state_of : S;
  trace_of : list effect
}.
Arguments mkOutcome {S A} _ _ _.
Arguments flow_of {S A} _.
Arguments state_of {S A} _.
Arguments trace_of {S A} _.

Definition handler (S A : Type) : Type := S -> outcome S A.

Definition ret {S A} (a : A) : handler S A :=
  fun s => mkOutcome (Next a) s [].

Definition return_ {S A} : handler S A :=
  fun s => mkOutcome Returned s [].

Definition panic {S A} : handler S A :=
  fun s => mkOutcome Panicked s [].

Definition emit {S} (e : effect) : handler S unit :=
  fun s => mkOutcome (Next tt) s [e].

Definition bind {S A B} (m : handler S A) (f : A -> handler S B) : handler S B :=
  fun s =>
    match m s with
    | mkOutcome (Next a) s1 t1 =>
        match f a s1 with
        | mkOutcome fl s2 t2 => mkOutcome fl s2 (t1 ++ t2)
        end
    | mkOutcome Returned s1 t1 => mkOutcome Returned s1 t1
    | mkOutcome Panicked s1 t1 => mkOutcome Panicked s1 t1
    end.

Declare Scope handler_scope.
Delimit Scope handler_scope with handler.
Notation "x <- m ;; k" := (bind m (fun x => k))
  (at level 100, m at next level, right associativity) : handler_scope.
Notation "m ;; k" := (bind m (fun _ => k))
  (at level 100, right associativity) : handler_scope.
Local Open Scope handler_scope.

(** [*p] on a pointer: a nil pointer panics. *)
Definition deref {S A} (p : option A) : handler S A :=
  match p with
  | Some a => ret a
  | None => panic
  end.

(** ** Package [helpers] *)

Module helpers.
(** [helpers.Bind(w, r, &key)]: the decoded body, or [None] after the
    helper has answered the request itself. *)
Definition Bind {S} (r : http.Request) : handler S (option db.AccessKey.t) :=
  match http.body r with
  | Some key => ret (Some key)
  | None => emit BindFailed ;; ret None
  end.

Definition WriteJSON {S} (code : Z) (body : list (string * jvalue)) : handler S unit :=
  emit (WriteJSON code body).

Definition WriteError {S} (err : db.error) : handler S unit :=
  emit (WriteError err).
End helpers.

(** ** The store, called from a handler *)

Section StoreCalls.
Context {S : Type} {store : db.Store S}.

Definition CreateAccessKey (key : db.AccessKey.t) : handler S (db.result db.AccessKey.t) :=
  fun s => let '(res, s') := db.CreateAccessKey key s in
           mkOutcome (Next res) s' [StoreCreateAccessKey key res].

Definition UpdateAccessKey (key : db.AccessKey.t) : handler S (option db.error) :=
  fun s => let '(err, s') := db.UpdateAccessKey key s in
           mkOutcome (Next err) s' [StoreUpdateAccessKey key err].

Definition DeleteAccessKeySoft (projectID keyID : Z) : handler S (option db.error) :=
  fun s => let '(err, s') := db.DeleteAccessKeySoft projectID keyID s in
           mkOutcome (Next err) s' [StoreDeleteAccessKeySoft projectID keyID err].

Definition DeleteAccessKey (projectID keyID : Z) : handler S (option db.error) :=
  fun s => let '(err, s') := db.DeleteAccessKey projectID keyID s in
           mkOutcome (Next err) s' [StoreDeleteAccessKey projectID keyID err].

Definition CreateEvent (ev : db.Event.t) : handler S (db.result db.Event.t) :=
  fun s => let '(res, s') := db.CreateEvent ev s in
           mkOutcome (Next res) s' [StoreCreateEvent ev res].
End StoreCalls.

(** The one-character string ["\n"]. *)
Definition LF : string := String.String "010"%char EmptyString.

(** ** Reading keys: the rest of the store and of the effects *)

Module db_read.
(** Modelled from the spec: [db.RetrieveQueryParams] is declared in package
    [db]; [GetKeys] sets these two fields. *)
Record RetrieveQueryParams : Type := mkParams {
  SortBy : string;
  SortInverted : bool
}.

(** The two read methods of the [db.Store] interface that this file
    calls. *)
Class Store (S : Type) : Type := {
  GetAccessKey : Z -> Z -> S -> db.result db.AccessKey.t * S;
  GetAccessKeys :
    Z -> RetrieveQueryParams -> S -> db.result (list db.AccessKey.t) * S
}.
End db_read.

(** What the reading side does: its own store calls and JSON bodies, and any
    effect of the mutating handlers. *)
Inductive read_effect : Type :=
| StoreGetAccessKey (projectID keyID : Z) (res : db.result db.AccessKey.t)
| StoreGetAccessKeys (projectID : Z) (params : db_read.RetrieveQueryParams)
                     (res : db.result (list db.AccessKey.t))
| GetIntParamFailed
| WriteKey (code : Z) (key : db.AccessKey.t)
| WriteKeys (code : Z) (keys : list db.AccessKey.t)
| Effect (e : effect).

Record served (S : Type) : Type := mkServed {
  served_flow : flow unit;
  served_state : S;
  served_trace : list read_effect
}.
Arguments mkServed {S} _ _ _.
Arguments served_flow {S} _.
Arguments served_state {S} _.
Arguments served_trace {S} _.

(** [http.Handler]: something that serves a request. *)
Definition Handler (S : Type) : Type := http.Request -> S -> served S.

(** [http.HandlerFunc]: one of the mutating handlers as an [http.Handler]. *)
Definition HandlerFunc {S} (h : http.Request -> handler S unit) : Handler S :=
  fun r s =>
    match h r s with
    | mkOutcome fl s' t => mkServed fl s' (map Effect t)
    end.

(** ** Package [projects]: the handlers *)

Module projects.
Section Handlers.
Context {S : Type} {store : db.Store S}.

(** [context.Get(r, k).(T)]: the type assertion panics on a missing
    entry. *)
Definition type_assert {A} (v : option A) : handler S A :=
  match v with
  | Some a => ret a
  | None => panic
  end.

(** [p == nil || len( *p ) == 0] *)
Definition nil_or_empty (p : option string) : bool :=
  match p with
  | None => true
  | Some s => Nat.eqb (String.length s) 0
  end.

(** [AddKey] adds a new key to the database. *)
Definition AddKey (r : http.Request) : handler S unit :=
  project <- type_assert (http.ctx_project r) ;;
  bound <- helpers.Bind r ;;
  match bound with
  | None => return_
  | Some key =>
    (if match db.AccessKey.ProjectID key with
        | None => true
        | Some p => negb (p =? db.Project.ID project)
        end
     then
       (helpers.WriteJSON http.StatusBadRequest
          [("error", JString "Project ID in body and URL must be the same")] ;;
        return_)
     else ret tt) ;;
    (if String.eqb (db.AccessKey.Type_ key) "aws"
        || String.eqb (db.AccessKey.Type_ key) "gcloud"
        || String.eqb (db.AccessKey.Type_ key) "do"
     then ret tt
     else if String.eqb (db.AccessKey.Type_ key) "ssh"
     then
       if nil_or_empty (db.AccessKey.Secret key)
       then
         (helpers.WriteJSON http.StatusBadRequest
            [("error", JString "SSH Secret empty")] ;;
          return_)
       else ret tt
     else
       (helpers.WriteJSON http.StatusBadRequest
          [("error", JString "Invalid key type")] ;;
        return_)) ;;
    secret <- deref (db.AccessKey.Secret key) ;;
    let key := db.AccessKey.with_Secret key (Some (secret ++ LF)) in
    res <- CreateAccessKey key ;;
    match res with
    | db.Err err => helpers.WriteError err ;; return_
    | db.Ok newKey =>
      let objType := "key" in
      let desc := "Access Key " ++ db.AccessKey.Name key ++ " created" in
      res <- CreateEvent (db.Event.mk
                            (db.AccessKey.ProjectID newKey)
                            (Some objType)
                            (Some (db.AccessKey.ID newKey))
                            (Some desc)) ;;
      match res with
      | db.Err err => emit (LogError err)
      | db.Ok _ => ret tt
      end ;;
      emit (WriteHeader http.StatusNoContent)
    end
  end.

(** [UpdateKey] updates key in database. *)
Definition UpdateKey (r : http.Request) : handler S unit :=
  oldKey <- type_assert (http.ctx_accessKey r) ;;
  bound <- helpers.Bind r ;;
  match bound with
  | None => return_
  | Some key =>
    (if String.eqb (db.AccessKey.Type_ key) "aws"
        || String.eqb (db.AccessKey.Type_ key) "gcloud"
        || String.eqb (db.AccessKey.Type_ key) "do"
     then ret tt
     else if String.eqb (db.AccessKey.Type_ key) "ssh"
     then
       if nil_or_empty (db.AccessKey.Secret key)
       then
         (helpers.WriteJSON http.StatusBadRequest
            [("error", JString "SSH Secret empty")] ;;
          return_)
       else ret tt
     else
       (helpers.WriteJSON http.StatusBadRequest
          [("error", JString "Invalid key type")] ;;
        return_)) ;;
    let key :=
      match db.AccessKey.Secret key with
      | None => db.AccessKey.with_Secret key (db.AccessKey.Secret oldKey)
      | Some s =>
        if Nat.eqb (String.length s) 0
        then (* override secret *)
          db.AccessKey.with_Secret key (db.AccessKey.Secret oldKey)
        else
          let secret := s ++ LF in
          db.AccessKey.with_Secret key (Some secret)
      end in
    err <- UpdateAccessKey key ;;
    match err with
    | Some err => helpers.WriteError err ;; return_
    | None =>
      let desc := "Access Key " ++ db.AccessKey.Name key ++ " updated" in
      let objType := "key" in
      res <- CreateEvent (db.Event.mk
                            (db.AccessKey.ProjectID oldKey)
                            (Some objType)
                            (Some (db.AccessKey.ID oldKey))
                            (Some desc)) ;;
      match res with
      | db.Err err => emit (LogError err) ;; return_
      | db.Ok _ => ret tt
      end ;;
      emit (WriteHeader http.StatusNoContent)
    end
  end.

(** [softDeletion := len(r.URL.Query().Get("setRemoved")) == 0] *)
Definition softDeletion (r : http.Request) : bool :=
  Nat.eqb (String.length (http.Get (http.query r) "setRemoved")) 0.

(** [RemoveKey] deletes a key from the database. *)
Definition RemoveKey (r : http.Request) : handler S unit :=
  key <- type_assert (http.ctx_accessKey r) ;;
  err <-
    (if softDeletion r
     then
       (projectID <- deref (db.AccessKey.ProjectID key) ;;
        DeleteAccessKeySoft projectID (db.AccessKey.ID key))
     else
       (projectID <- deref (db.AccessKey.ProjectID key) ;;
        err <- DeleteAccessKey projectID (db.AccessKey.ID key) ;;
        match err with
        | Some e =>
          if db.error_eqb e db.ErrInvalidOperation
          then
            (helpers.WriteJSON http.StatusBadRequest
               [("error", JString "Inventory is in use by one or more templates");
                ("inUse", JBool true)] ;;
             return_)
          else ret err
        | None => ret err
        end)) ;;
  match err with
  | Some err => helpers.WriteError err ;; return_
  | None =>
    let desc := "Access Key " ++ db.AccessKey.Name key ++ " deleted" in
    res <- CreateEvent (db.Event.mk
                          (db.AccessKey.ProjectID key)
                          None
                          None
                          (Some desc)) ;;
    match res with
    | db.Err err => emit (LogError err)
    | db.Ok _ => ret tt
    end ;;
    emit (WriteHeader http.StatusNoContent)
  end.

End Handlers.

Section Queries.
Context {S : Type} {reads : db_read.Store S}.

(** The package constant [desc], declared in another file of the package. *)
Variable desc : string.

(** [helpers.GetIntParam(name, w, r)]: the integer URL parameter, or [None]
    after the helper has answered the request itself. *)
Variable GetIntParam : string -> http.Request -> option Z.

(** [context.Set(r, "accessKey", key)] *)
Definition set_accessKey (r : http.Request) (key : db.AccessKey.t) : http.Request :=
  http.mkRequest (http.ctx_project r) (Some key) (http.body r) (http.query r).

(** [KeyMiddleware] ensures a key exists and loads it to the context. *)
Definition KeyMiddleware (next : Handler S) : Handler S :=
  fun r s =>
    match http.ctx_project r with
    | None => mkServed Panicked s []
    | Some project =>
      match GetIntParam "key_id" r with
      | None => mkServed Returned s [GetIntParamFailed]
      | Some keyID =>
        let '(res, s1) :=
          db_read.GetAccessKey (db.Project.ID project) keyID s in
        match res with
        | db.Err err =>
          mkServed Returned s1
            [StoreGetAccessKey (db.Project.ID project) keyID res;
             Effect (WriteError err)]
        | db.Ok key =>
          match next (set_accessKey r key) s1 with
          | mkServed fl s2 t =>
            mkServed (match fl with Panicked => Panicked | _ => Next tt end) s2
              (StoreGetAccessKey (db.Project.ID project) keyID res :: t)
          end
        end
      end
    end.

(** [GetKeys] retrieves sorted keys from the database. *)
Definition GetKeys : Handler S :=
  fun r s =>
    match http.ctx_accessKey r with
    | Some key => mkServed Returned s [WriteKey http.StatusOK key]
    | None =>
      match http.ctx_project r with
      | None => mkServed Panicked s []
      | Some project =>
        let params :=
          db_read.mkParams
            (http.Get (http.query r) "sort")
            (String.eqb (http.Get (http.query r) "order") desc) in
        let '(res, s1) :=
          db_read.GetAccessKeys (db.Project.ID project) params s in
        match res with
        | db.Err err =>
          mkServed Returned s1
            [StoreGetAccessKeys (db.Project.ID project) params res;
             Effect (WriteError err)]
        | db.Ok keys =>
          mkServed (Next tt) s1
            [StoreGetAccessKeys (db.Project.ID project) params res;
             WriteKeys http.StatusOK keys]
        end
      end
    end.

End Queries.
End projects.

(** ** The specification's validator *)

Module KeyValidator.
Inductive ValidationError : Type :=
| InvalidType
| EmptySecret.

(** Modelled from the spec: the contract [Validate(key) -> ValidationError?]
    of the specification's section 4.1, in its words: a type outside
    [{aws, gcloud, do, ssh}] is an [InvalidType] error, type [ssh] with an
    absent or empty secret is an [EmptySecret] error, and the three cloud
    types carry no constraint on the secret. *)
Definition Validate (key : db.AccessKey.t) : option ValidationError :=
  let ty := db.AccessKey.Type_ key in
  if negb (existsb (String.eqb ty) ["aws"; "gcloud"; "do"; "ssh"])
  then Some InvalidType
  else if String.eqb ty "ssh"
  then match db.AccessKey.Secret key with
       | None => Some EmptySecret
       | Some "" => Some EmptySecret
       | Some _ => None
       end
  else None.

(** The text of the error the handlers answer with. *)
Definition message (e : ValidationError) : string :=
  match e with
  | InvalidType => "Invalid key type"
  | EmptySecret => "SSH Secret empty"
  end.
End KeyValidator.

(** ** An in-memory store *)

Module MemStore.
(** Modelled from the spec: the [KeyStore] and [EventRecorder]
    collaborators of the specification's section 6, which this repository
    keeps outside [api/projects]: creation assigns the identifier, a hard
    delete of a key that a dependent entity references is refused with the
    distinguished error, a soft delete sets [Removed], and the event log is
    append-only and may be unavailable. *)
Record t : Type := mk {
  keys : list db.AccessKey.t;
  events : list db.Event.t;
  next_id : Z;
  in_use : list Z;
  events_up : bool
}.

Definition has_key (id : Z) (s : t) : bool :=
  existsb (fun k => db.AccessKey.ID k =? id) (keys s).

Definition create (key : db.AccessKey.t) (s : t) : db.result db.AccessKey.t * t :=
  let newKey := db.AccessKey.with_ID key (next_id s) in
  (db.Ok newKey,
   mk (newKey :: keys s) (events s) (next_id s + 1) (in_use s) (events_up s)).

Definition update (key : db.AccessKey.t) (s : t) : option db.error * t :=
  if has_key (db.AccessKey.ID key) s
  then (None,
        mk (map (fun k => if db.AccessKey.ID k =? db.AccessKey.ID key
                          then key else k) (keys s))
           (events s) (next_id s) (in_use s) (events_up s))
  else (Some db.ErrNotFound, s).

Definition delete_soft (projectID keyID : Z) (s : t) : option db.error * t :=
  if has_key keyID s
  then (None,
        mk (map (fun k => if db.AccessKey.ID k =? keyID
                          then db.AccessKey.with_Removed k true else k) (keys s))
           (events s) (next_id s) (in_use s) (events_up s))
  else (Some db.ErrNotFound, s).

Definition delete (projectID keyID : Z) (s : t) : option db.error * t :=
  if existsb (Z.eqb keyID) (in_use s)
  then (Some db.ErrInvalidOperation, s)
  else if has_key keyID s
  then (None,
        mk (filter (fun k => negb (db.AccessKey.ID k =? keyID)) (keys s))
           (events s) (next_id s) (in_use s) (events_up s))
  else (Some db.ErrNotFound, s).

Definition create_event (ev : db.Event.t) (s : t) : db.result db.Event.t * t :=
  if events_up s
  then (db.Ok ev, mk (keys s) (ev :: events s) (next_id s) (in_use s) (events_up s))
  else (db.Err (db.ErrOther "event log unavailable"), s).

#[global] Instance store : db.Store t := {
  db.CreateAccessKey := create;
  db.UpdateAccessKey := update;
  db.DeleteAccessKeySoft := delete_soft;
  db.DeleteAccessKey := delete;
  db.CreateEvent := create_event
}.

(** Project 7 with one stored key, number 1, which a template uses. *)
Definition project7 : db.Project.t := db.Project.mk 7 "demo".

Definition key1 : db.AccessKey.t :=
  db.AccessKey.mk 1 "deploy" "aws" (Some 7) (Some ("old" ++ LF)) false.

Definition initial : t := mk [key1] [] 2 [] true.

Definition key1_in_use : t := mk [key1] [] 2 [1] true.

Definition events_down : t := mk [key1] [] 2 [] false.
End MemStore.

(** The read methods of the in-memory store. *)
Module MemRead.
Definition owned (projectID : Z) (k : db.AccessKey.t) : bool :=
  match db.AccessKey.ProjectID k with
  | Some p => p =? projectID
  | None => false
  end.

(** Modelled from the spec: [GetByID(projectID, keyID) -> AccessKey|NotFound]
    of the specification's section 6. *)
Definition get (projectID keyID : Z) (s : MemStore.t)
  : db.result db.AccessKey.t * MemStore.t :=
  match find (fun k => (db.AccessKey.ID k =? keyID) && owned projectID k)
             (MemStore.keys s) with
  | Some k => (db.Ok k, s)
  | None => (db.Err db.ErrNotFound, s)
  end.

(** Modelled from the spec: [List(projectID, params) -> []AccessKey] of the
    specification's section 6, soft-deleted records excluded; the order is
    the stored one, reversed on request. *)
Definition list_keys (projectID : Z) (params : db_read.RetrieveQueryParams)
           (s : MemStore.t) : db.result (list db.AccessKey.t) * MemStore.t :=
  let ks := filter (fun k => owned projectID k && negb (db.AccessKey.Removed k))
                   (MemStore.keys s) in
  (db.Ok (if db_read.SortInverted params then rev ks else ks), s).

#[global] Instance reads : db_read.Store MemStore.t := {
  db_read.GetAccessKey := get;
  db_read.GetAccessKeys := list_keys
}.
End MemRead.

(** A store that is down: every method fails and nothing changes. *)
Module DownStore.
Definition down : db.error := db.ErrOther "store unavailable".

#[global] Instance store : db.Store unit := {
  db.CreateAccessKey := fun _ s => (db.Err down, s);
  db.UpdateAccessKey := fun _ s => (Some down, s);
  db.DeleteAccessKeySoft := fun _ _ s => (Some down, s);
  db.DeleteAccessKey := fun _ _ s => (Some down, s);
  db.CreateEvent := fun _ s => (db.Err down, s)
}.

#[global] Instance reads : db_read.Store unit := {
  db_read.GetAccessKey := fun _ _ s => (db.Err down, s);
  db_read.GetAccessKeys := fun _ _ s => (db.Err down, s)
}.
End DownStore.

(** ** Requests used in the examples *)

Module Fixtures.
Definition add_request (key : db.AccessKey.t) : http.Request :=
  http.mkRequest (Some MemStore.project7) None (Some key) [].

Definition update_request (key : db.AccessKey.t) : http.Request :=
  http.mkRequest (Some MemStore.project7) (Some MemStore.key1) (Some key) [].

Definition remove_request (q : http.Values) : http.Request :=
  http.mkRequest (Some MemStore.project7) (Some MemStore.key1) None q.

Definition ssh_abc : db.AccessKey.t :=
  db.AccessKey.mk 0 "ci" "ssh" (Some 7) (Some "abc") false.

Definition ssh_no_secret : db.AccessKey.t :=
  db.AccessKey.mk 1 "deploy" "ssh" (Some 7) None false.

Definition aws_no_secret : db.AccessKey.t :=
  db.AccessKey.mk 1 "deploy" "aws" (Some 7) None false.

Definition aws_other_project : db.AccessKey.t :=
  db.AccessKey.mk 1 "deploy" "aws" (Some 9) None false.

Definition ftp_key : db.AccessKey.t :=
  db.AccessKey.mk 0 "ci" "ftp" (Some 7) (Some "abc") false.

Definition aws_new : db.AccessKey.t :=
  db.AccessKey.mk 0 "ci" "aws" (Some 7) None false.

Definition log_down : db.error := db.ErrOther "event log unavailable".

Definition created_event : db.Event.t :=
  db.Event.mk (Some 7) (Some "key") (Some 2) (Some "Access Key ci created").

Definition updated_event : db.Event.t :=
  db.Event.mk (Some 7) (Some "key") (Some 1) (Some "Access Key deploy updated").

Definition deleted_event : db.Event.t :=
  db.Event.mk (Some 7) None None (Some "Access Key deploy deleted").

(** Requests for the wider set of examples. *)
Definition no_context : http.Request :=
  http.mkRequest None None (Some ssh_abc) [].

Definition add_without_body : http.Request :=
  http.mkRequest (Some MemStore.project7) None None [].

Definition update_without_body : http.Request :=
  http.mkRequest (Some MemStore.project7) (Some MemStore.key1) None [].

Definition global_key : db.AccessKey.t :=
  db.AccessKey.mk 3 "shared" "ssh" None (Some ("k" ++ LF)) false.

Definition ghost_key : db.AccessKey.t :=
  db.AccessKey.mk 5 "gone" "aws" (Some 7) None false.

Definition remove_request_of (key : db.AccessKey.t) (q : http.Values)
  : http.Request :=
  http.mkRequest (Some MemStore.project7) (Some key) None q.

Definition aws_empty_secret : db.AccessKey.t :=
  db.AccessKey.mk 0 "ci" "aws" (Some 7) (Some "") false.

Definition renamed_ssh : db.AccessKey.t :=
  db.AccessKey.mk 1 "renamed" "ssh" (Some 7) (Some "abc") false.

Definition key1_retyped : db.AccessKey.t :=
  db.AccessKey.mk 1 "legacy" "gcloud" (Some 7) (Some ("old" ++ LF)) true.

Definition sorted_request : http.Request :=
  http.mkRequest (Some MemStore.project7) None None
    [("sort", ["name"]); ("order", ["desc"])].

(** The URL of a request for key [n]. *)
Definition key_id_param (n : option Z) : string -> http.Request -> option Z :=
  fun name _ => if String.eqb name "key_id" then n else None.

Definition project_request (q : http.Values) : http.Request :=
  http.mkRequest (Some MemStore.project7) None None q.
End Fixtures.

(** ** Vocabulary of the statements *)

(** The handler answered 400 with [{"error": msg}] and did nothing else: it
    returned, the store's state is the initial one and no store method was
    called. *)
Definition rejected {S} (msg : string) (s : S) (o : outcome S unit) : Prop :=
  flow_of o = Returned /\
  state_of o = s /\
  trace_of o = [WriteJSON http.StatusBadRequest [("error", JString msg)]] /\
  no_store_call (trace_of o) = true.

(** The three types that carry a cloud credential. *)
Definition cloud_type (ty : string) : Prop :=
  In ty ["aws"; "gcloud"; "do"].

(** A store call that changed a key and reported no error. *)
Definition mutation_succeeded (e : effect) : bool :=
  match e with
  | StoreCreateAccessKey _ (db.Ok _) => true
  | StoreUpdateAccessKey _ None => true
  | StoreDeleteAccessKeySoft _ _ None => true
  | StoreDeleteAccessKey _ _ None => true
  | _ => false
  end.

(** The writes to the [http.ResponseWriter] in a trace. *)
Definition responses (t : list effect) : list effect :=
  filter is_response t.

(** The outcome of a handler that writes no header but 204 and writes it
    exactly when it ran to its last statement. *)
Definition completes_with_204 {S} (o : outcome S unit) : Prop :=
  (flow_of o = Next tt <->
   In (WriteHeader http.StatusNoContent) (trace_of o)) /\
  forall code, In (WriteHeader code) (trace_of o) ->
               code = http.StatusNoContent.

(** Every audit event of the trace comes right after a successful key
    mutation, and no store call follows it. *)
Definition event_after_mutation (t : list effect) : Prop :=
  forall ev res,
    In (StoreCreateEvent ev res) t ->
    exists m rest,
      t = m :: StoreCreateEvent ev res :: rest /\
      mutation_succeeded m = true /\
      no_store_call rest = true.

(** ** Proof automation *)

Ltac unfold_handler :=
  unfold projects.AddKey, projects.UpdateKey, projects.RemoveKey,
    projects.softDeletion, helpers.Bind, helpers.WriteJSON, helpers.WriteError,
    CreateAccessKey, UpdateAccessKey, DeleteAccessKeySoft, DeleteAccessKey,
    CreateEvent, projects.type_assert, deref, bind, ret, return_, panic, emit.

Tactic Notation "unfold_handler" "in" hyp(H) :=
  unfold projects.AddKey, projects.UpdateKey, projects.RemoveKey,
    projects.softDeletion, helpers.Bind, helpers.WriteJSON, helpers.WriteError,
    CreateAccessKey, UpdateAccessKey, DeleteAccessKeySoft, DeleteAccessKey,
    CreateEvent, projects.type_assert, deref, bind, ret, return_, panic, emit in H.

(** Case analysis on whatever the handler branches on next: the innermost
    scrutinee that is stuck. *)
Ltac break_match :=
  match goal with
  | H : context [match ?x with _ => _ end] |- _ =>
    lazymatch x with
    | context [match _ with _ => _ end] => fail
    | _ => destruct x eqn:?; cbn in *
    end
  | |- context [match ?x with _ => _ end] =>
    lazymatch x with
    | context [match _ with _ => _ end] => fail
    | _ => destruct x eqn:?; cbn in *
    end
  end.

(** Membership in a trace that is now an explicit list. *)
Ltac in_trace :=
  repeat match goal with
  | H : False |- _ => contradiction
  | H : _ \/ _ |- _ => destruct H as [H|H]
  | H : In _ _ |- _ => cbn in H
  | H : @eq effect _ _ |- _ => first [discriminate H | injection H as ?; subst]
  end.

(** ** Lemmas on the tests the handlers make *)

Lemma length_zero_iff (s : string) :
  Nat.eqb (String.length s) 0 = true <-> s = "".
Proof.
  destruct s; cbn; split; intros H; try reflexivity; discriminate H.
Qed.

Lemma nil_or_empty_iff (p : option string) :
  projects.nil_or_empty p = true <-> p = None \/ p = Some "".
Proof.
  unfold projects.nil_or_empty. destruct p as [s|].
  - rewrite length_zero_iff. split.
    + intros ->. now right.
    + intros [H|H]; congruence.
  - split; auto.
Qed.

Lemma cloud_type_eqb (ty : string) :
  cloud_type ty ->
  String.eqb ty "aws" || String.eqb ty "gcloud" || String.eqb ty "do" = true.
Proof.
  unfold cloud_type. cbn. intros [<-|[<-|[<-|[]]]]; reflexivity.
Qed.

Lemma Validate_Some (key : db.AccessKey.t) (e : KeyValidator.ValidationError) :
  KeyValidator.Validate key = Some e ->
  String.eqb (db.AccessKey.Type_ key) "aws"
  || String.eqb (db.AccessKey.Type_ key) "gcloud"
  || String.eqb (db.AccessKey.Type_ key) "do" = false /\
  ((String.eqb (db.AccessKey.Type_ key) "ssh" = true /\
    projects.nil_or_empty (db.AccessKey.Secret key) = true /\
    e = KeyValidator.EmptySecret) \/
   (String.eqb (db.AccessKey.Type_ key) "ssh" = false /\
    e = KeyValidator.InvalidType)).
Proof.
  unfold KeyValidator.Validate, projects.nil_or_empty. cbn [existsb].
  destruct (String.eqb (db.AccessKey.Type_ key) "aws") eqn:Ea;
  destruct (String.eqb (db.AccessKey.Type_ key) "gcloud") eqn:Eg;
  destruct (String.eqb (db.AccessKey.Type_ key) "do") eqn:Ed;
  destruct (String.eqb (db.AccessKey.Type_ key) "ssh") eqn:Es; cbn;
  try (apply String.eqb_eq in Ea); try (apply String.eqb_eq in Es);
  try (apply String.eqb_eq in Eg); try (apply String.eqb_eq in Ed);
  try congruence.
  - destruct (db.AccessKey.Secret key) as [[|c t]|]; cbn;
      intros H; inversion H; auto.
  - intros H; inversion H; auto.
Qed.

Lemma Validate_None (key : db.AccessKey.t) :
  KeyValidator.Validate key = None ->
  String.eqb (db.AccessKey.Type_ key) "aws"
  || String.eqb (db.AccessKey.Type_ key) "gcloud"
  || String.eqb (db.AccessKey.Type_ key) "do" = true \/
  (String.eqb (db.AccessKey.Type_ key) "aws"
   || String.eqb (db.AccessKey.Type_ key) "gcloud"
   || String.eqb (db.AccessKey.Type_ key) "do" = false /\
   String.eqb (db.AccessKey.Type_ key) "ssh" = true /\
   projects.nil_or_empty (db.AccessKey.Secret key) = false).
Proof.
  unfold KeyValidator.Validate, projects.nil_or_empty. cbn [existsb].
  destruct (String.eqb (db.AccessKey.Type_ key) "aws") eqn:Ea;
  destruct (String.eqb (db.AccessKey.Type_ key) "gcloud") eqn:Eg;
  destruct (String.eqb (db.AccessKey.Type_ key) "do") eqn:Ed;
  destruct (String.eqb (db.AccessKey.Type_ key) "ssh") eqn:Es; cbn;
  auto; try discriminate.
  destruct (db.AccessKey.Secret key) as [[|c t]|]; cbn; auto; discriminate.
Qed.

(** ** The handlers over an arbitrary store *)

Section Properties.
Context {S : Type} {store : db.Store S}.

(** A body without a secret never reaches the store through [AddKey]:
    line 91 dereferences [key.Secret] whatever the type is. *)
Lemma AddKey_nil_secret_never_persists (r : http.Request) (s : S)
      (key : db.AccessKey.t) :
  http.body r = Some key ->
  db.AccessKey.Secret key = None ->
  no_store_call (trace_of (projects.AddKey r s)) = true /\
  flow_of (projects.AddKey r s) <> Next tt /\
  state_of (projects.AddKey r s) = s.
Proof.
  intros Hb Hs. unfold_handler. rewrite Hb, Hs. cbn.
  repeat break_match; cbn; repeat split; congruence.
Qed.

(** [UpdateKey] hands the store the identity fields of the body. *)
Lemma UpdateKey_persists_body_identity (r : http.Request) (s : S)
      (key k : db.AccessKey.t) (err : option db.error) :
  http.body r = Some key ->
  In (StoreUpdateAccessKey k err) (trace_of (projects.UpdateKey r s)) ->
  db.AccessKey.ProjectID k = db.AccessKey.ProjectID key /\
  db.AccessKey.ID k = db.AccessKey.ID key.
Proof.
  intros Hb H. unfold_handler in H. rewrite Hb in H. cbn in H.
  repeat break_match; in_trace; cbn; auto.
Qed.

(** C5: every validation failure is answered before the store is touched.
    A body that the validator refuses (a type outside aws, gcloud, do, ssh,
    or type ssh with an absent or empty secret) makes [AddKey] and
    [UpdateKey] answer 400 with the validation error and return with no
    store call and the store unchanged; [AddKey] on a body whose ProjectID
    is absent or differs from the context project's ID answers 400 likewise
    before any store call. *)
Theorem validation_precedes_persistence (r : http.Request) (s : S)
        (key : db.AccessKey.t) :
  http.body r = Some key ->
  (forall e, KeyValidator.Validate key = Some e ->
     (forall project, http.ctx_project r = Some project ->
        rejected (KeyValidator.message e) s (projects.AddKey r s) \/
        rejected "Project ID in body and URL must be the same" s
                 (projects.AddKey r s)) /\
     (forall oldKey, http.ctx_accessKey r = Some oldKey ->
        rejected (KeyValidator.message e) s (projects.UpdateKey r s))) /\
  (forall project, http.ctx_project r = Some project ->
     db.AccessKey.ProjectID key <> Some (db.Project.ID project) ->
     rejected "Project ID in body and URL must be the same" s
              (projects.AddKey r s)).
Proof.
  intros Hb. split.
  - intros e He. apply Validate_Some in He. destruct He as [Hc Hs]. split.
    + intros project Hp. unfold_handler. rewrite Hp, Hb. cbn.
      destruct (match db.AccessKey.ProjectID key with
                | None => true
                | Some p => negb (p =? db.Project.ID project)
                end); cbn.
      * right. repeat split.
      * left. rewrite Hc.
        destruct Hs as [(-> & -> & ->)|(-> & ->)]; cbn; repeat split.
    + intros oldKey Ho. unfold_handler. rewrite Ho, Hb. cbn.
      rewrite Hc.
      destruct Hs as [(-> & -> & ->)|(-> & ->)]; cbn; repeat split.
  - intros project Hp Hne. unfold_handler. rewrite Hp, Hb. cbn.
    destruct (db.AccessKey.ProjectID key) as [p|]; cbn.
    + destruct (Z.eqb_spec p (db.Project.ID project)); [congruence|].
      cbn. repeat split.
    + repeat split.
Qed.

(** C9: the audit event of an update names the previous key.  Every event
    [UpdateKey] writes carries the ProjectID and the ID of the key the
    context resolved, whatever the body says, and an update that signals
    success has written such an event. *)
Theorem update_event_names_previous_key (r : http.Request) (s : S)
        (oldKey : db.AccessKey.t) :
  http.ctx_accessKey r = Some oldKey ->
  (forall ev res,
     In (StoreCreateEvent ev res) (trace_of (projects.UpdateKey r s)) ->
     db.Event.ProjectID ev = db.AccessKey.ProjectID oldKey /\
     db.Event.ObjectID ev = Some (db.AccessKey.ID oldKey)) /\
  (In (WriteHeader http.StatusNoContent) (trace_of (projects.UpdateKey r s)) ->
   exists ev ev',
     In (StoreCreateEvent ev (db.Ok ev')) (trace_of (projects.UpdateKey r s))).
Proof.
  intros Ho. split.
  - intros ev res H. unfold_handler in H. rewrite Ho in H. cbn in H.
    repeat break_match; in_trace; cbn; auto.
  - intros H. unfold_handler. unfold_handler in H. rewrite Ho in *. cbn in *.
    repeat break_match; in_trace; cbn; eauto.
Qed.

(** C6: a failed audit write is handled differently by the three handlers.
    When the event write fails after the key mutation went through,
    [AddKey] and [RemoveKey] log the error and still write the 204 header;
    [UpdateKey] logs the error and returns at once: no 204 header, and
    nothing else, is written to the response. *)
Theorem audit_failure_asymmetry (r : http.Request) (s : S)
        (ev : db.Event.t) (err : db.error) :
  (In (StoreCreateEvent ev (db.Err err)) (trace_of (projects.AddKey r s)) ->
   flow_of (projects.AddKey r s) = Next tt /\
   exists key newKey,
     trace_of (projects.AddKey r s) =
     [StoreCreateAccessKey key (db.Ok newKey);
      StoreCreateEvent ev (db.Err err);
      LogError err;
      WriteHeader http.StatusNoContent]) /\
  (In (StoreCreateEvent ev (db.Err err)) (trace_of (projects.RemoveKey r s)) ->
   flow_of (projects.RemoveKey r s) = Next tt /\
   exists projectID keyID,
     trace_of (projects.RemoveKey r s) =
     [(if projects.softDeletion r
       then StoreDeleteAccessKeySoft projectID keyID None
       else StoreDeleteAccessKey projectID keyID None);
      StoreCreateEvent ev (db.Err err);
      LogError err;
      WriteHeader http.StatusNoContent]) /\
  (In (StoreCreateEvent ev (db.Err err)) (trace_of (projects.UpdateKey r s)) ->
   flow_of (projects.UpdateKey r s) = Returned /\
   no_response (trace_of (projects.UpdateKey r s)) = true /\
   exists key,
     trace_of (projects.UpdateKey r s) =
     [StoreUpdateAccessKey key None;
      StoreCreateEvent ev (db.Err err);
      LogError err]).
Proof.
  split; [|split]; intros H; unfold_handler; unfold_handler in H; cbn in *.
  - repeat break_match; in_trace; cbn; split; eauto.
  - repeat break_match; in_trace; cbn; split; eauto.
  - repeat break_match; in_trace; cbn; repeat split; eauto.
Qed.


(** C8: a hard delete that the store refuses with the in-use conflict is
    answered 400 with a body whose [inUse] field is [true]; the handler
    then returns: no generic error, no audit event and no 204 header. *)
Theorem hard_delete_in_use_conflict (r : http.Request) (s s' : S)
        (key : db.AccessKey.t) (projectID : Z) :
  http.ctx_accessKey r = Some key ->
  db.AccessKey.ProjectID key = Some projectID ->
  http.Get (http.query r) "setRemoved" <> "" ->
  db.DeleteAccessKey projectID (db.AccessKey.ID key) s
  = (Some db.ErrInvalidOperation, s') ->
  projects.RemoveKey r s =
  mkOutcome Returned s'
    [StoreDeleteAccessKey projectID (db.AccessKey.ID key)
       (Some db.ErrInvalidOperation);
     WriteJSON http.StatusBadRequest
       [("error", JString "Inventory is in use by one or more templates");
        ("inUse", JBool true)]] /\
  (forall e, ~ In (WriteError e) (trace_of (projects.RemoveKey r s))) /\
  (forall ev res,
     ~ In (StoreCreateEvent ev res) (trace_of (projects.RemoveKey r s))) /\
  (forall code, ~ In (WriteHeader code) (trace_of (projects.RemoveKey r s))).
Proof.
  intros Hk Hp Hq Hd.
  assert (Hsoft : projects.softDeletion r = false).
  { unfold projects.softDeletion.
    destruct (Nat.eqb _ 0) eqn:E; [|reflexivity].
    apply length_zero_iff in E. contradiction. }
  assert (Hrun : projects.RemoveKey r s =
    mkOutcome Returned s'
      [StoreDeleteAccessKey projectID (db.AccessKey.ID key)
         (Some db.ErrInvalidOperation);
       WriteJSON http.StatusBadRequest
         [("error", JString "Inventory is in use by one or more templates");
          ("inUse", JBool true)]]).
  { unfold projects.RemoveKey. rewrite Hsoft. unfold_handler.
    rewrite Hk. cbn. rewrite Hp. cbn. rewrite Hd. reflexivity. }
  rewrite Hrun. cbn. repeat split; intros; intros H; in_trace.
Qed.

(** C10: the [setRemoved] query parameter alone chooses the kind of
    deletion.  The deletion is soft exactly when the parameter's value is
    the empty string, which is also what an absent parameter reads as; then
    the handler calls [DeleteAccessKeySoft] and never [DeleteAccessKey].
    Any non-empty value makes it call [DeleteAccessKey] and never
    [DeleteAccessKeySoft]. *)
Theorem delete_mode_by_setRemoved (r : http.Request) (s : S)
        (key : db.AccessKey.t) (projectID : Z) :
  http.ctx_accessKey r = Some key ->
  db.AccessKey.ProjectID key = Some projectID ->
  (projects.softDeletion r = true <->
   http.Get (http.query r) "setRemoved" = "") /\
  (http.lookup (http.query r) "setRemoved" = [] ->
   projects.softDeletion r = true) /\
  (http.Get (http.query r) "setRemoved" = "" ->
   (exists err,
      hd_error (trace_of (projects.RemoveKey r s)) =
      Some (StoreDeleteAccessKeySoft projectID (db.AccessKey.ID key) err)) /\
   forall p k e,
     ~ In (StoreDeleteAccessKey p k e) (trace_of (projects.RemoveKey r s))) /\
  (http.Get (http.query r) "setRemoved" <> "" ->
   (exists err,
      hd_error (trace_of (projects.RemoveKey r s)) =
      Some (StoreDeleteAccessKey projectID (db.AccessKey.ID key) err)) /\
   forall p k e,
     ~ In (StoreDeleteAccessKeySoft p k e) (trace_of (projects.RemoveKey r s))).
Proof.
  intros Hk Hp.
  assert (Hiff : projects.softDeletion r = true <->
                 http.Get (http.query r) "setRemoved" = "")
    by apply length_zero_iff.
  split; [exact Hiff|]. split; [|split].
  - intros Hl. apply Hiff. unfold http.Get. now rewrite Hl.
  - intros Hq. apply Hiff in Hq.
    unfold projects.RemoveKey. rewrite Hq. unfold_handler.
    rewrite Hk. cbn. rewrite Hp. cbn. split.
    + repeat break_match; cbn; eauto.
    + intros p k e H. repeat break_match; in_trace.
  - intros Hq.
    assert (Hsoft : projects.softDeletion r = false).
    { destruct (projects.softDeletion r); [|reflexivity].
      exfalso. apply Hq, Hiff. reflexivity. }
    unfold projects.RemoveKey. rewrite Hsoft. unfold_handler.
    rewrite Hk. cbn. rewrite Hp. cbn. split.
    + repeat break_match; cbn; eauto.
    + intros p k e H. repeat break_match; in_trace.
Qed.

(** C2, amended: an update of type aws, gcloud or do whose secret is absent
    or empty hands the store the body with the stored secret of the context
    key in place, unchanged, and signals success whenever the store accepts
    the update and no audit write fails. *)
Theorem update_without_secret_keeps_stored_secret (r : http.Request) (s : S)
        (oldKey key : db.AccessKey.t) :
  http.ctx_accessKey r = Some oldKey ->
  http.body r = Some key ->
  db.AccessKey.Secret key = None \/ db.AccessKey.Secret key = Some "" ->
  cloud_type (db.AccessKey.Type_ key) ->
  let key' := db.AccessKey.with_Secret key (db.AccessKey.Secret oldKey) in
  (exists err,
     hd_error (trace_of (projects.UpdateKey r s)) =
     Some (StoreUpdateAccessKey key' err)) /\
  (forall k err,
     In (StoreUpdateAccessKey k err) (trace_of (projects.UpdateKey r s)) ->
     k = key' /\ db.AccessKey.Secret k = db.AccessKey.Secret oldKey) /\
  (In (StoreUpdateAccessKey key' None) (trace_of (projects.UpdateKey r s)) ->
   (forall ev e,
      ~ In (StoreCreateEvent ev (db.Err e))
           (trace_of (projects.UpdateKey r s))) ->
   flow_of (projects.UpdateKey r s) = Next tt /\
   In (WriteHeader http.StatusNoContent) (trace_of (projects.UpdateKey r s))).
Proof.
  intros Ho Hb Hs Hc key'. subst key'.
  apply cloud_type_eqb in Hc.
  assert (Hkey : match db.AccessKey.Secret key with
                 | None => db.AccessKey.with_Secret key (db.AccessKey.Secret oldKey)
                 | Some s0 =>
                   if Nat.eqb (String.length s0) 0
                   then db.AccessKey.with_Secret key (db.AccessKey.Secret oldKey)
                   else db.AccessKey.with_Secret key (Some (s0 ++ LF))
                 end
                 = db.AccessKey.with_Secret key (db.AccessKey.Secret oldKey)).
  { destruct Hs as [-> | ->]; reflexivity. }
  unfold_handler. rewrite Ho, Hb. cbn. rewrite Hc. cbn. rewrite Hkey.
  split; [|split].
  - repeat break_match; cbn; eauto.
  - intros k err H. repeat break_match; in_trace; cbn; auto.
  - intros H Hev. repeat break_match; in_trace; cbn; auto;
      exfalso; eapply Hev; cbn; eauto.
Qed.

(** C4: a freshly supplied non-empty secret reaches the store with one
    newline appended.  Whenever [AddKey] or [UpdateKey] calls the store for
    a body whose secret is the non-empty [secret], the key it passes holds
    [secret ++ "\n"]; the call is made as soon as the body passes validation
    (and, for [AddKey], names the context project); and a later update of
    the stored value that supplies no secret passes [secret ++ "\n"] on as
    it is. *)
Theorem fresh_secret_gets_one_newline (r : http.Request) (s : S)
        (key : db.AccessKey.t) (secret : string) :
  http.body r = Some key ->
  db.AccessKey.Secret key = Some secret ->
  secret <> "" ->
  let key' := db.AccessKey.with_Secret key (Some (secret ++ LF)) in
  (forall k res,
     In (StoreCreateAccessKey k res) (trace_of (projects.AddKey r s)) ->
     k = key') /\
  (forall k err,
     In (StoreUpdateAccessKey k err) (trace_of (projects.UpdateKey r s)) ->
     k = key') /\
  (forall project,
     http.ctx_project r = Some project ->
     db.AccessKey.ProjectID key = Some (db.Project.ID project) ->
     KeyValidator.Validate key = None ->
     exists res,
       hd_error (trace_of (projects.AddKey r s)) =
       Some (StoreCreateAccessKey key' res)) /\
  (forall oldKey,
     http.ctx_accessKey r = Some oldKey ->
     KeyValidator.Validate key = None ->
     exists err,
       hd_error (trace_of (projects.UpdateKey r s)) =
       Some (StoreUpdateAccessKey key' err)) /\
  (forall r' s' stored body' k err,
     http.ctx_accessKey r' = Some stored ->
     db.AccessKey.Secret stored = Some (secret ++ LF) ->
     http.body r' = Some body' ->
     projects.nil_or_empty (db.AccessKey.Secret body') = true ->
     In (StoreUpdateAccessKey k err) (trace_of (projects.UpdateKey r' s')) ->
     db.AccessKey.Secret k = Some (secret ++ LF)).
Proof.
  intros Hb Hs Hne key'. subst key'.
  assert (Hlen : Nat.eqb (String.length secret) 0 = false).
  { destruct (Nat.eqb _ 0) eqn:E; [|reflexivity].
    apply length_zero_iff in E. contradiction. }
  assert (Hnil : projects.nil_or_empty (db.AccessKey.Secret key) = false).
  { rewrite Hs. exact Hlen. }
  split; [|split; [|split; [|split]]].
  - intros k res H. unfold_handler in H. rewrite Hb, Hs in H. cbn in H.
    repeat break_match; in_trace; cbn; auto.
  - intros k err H. unfold_handler in H. rewrite Hb, Hs, Hlen in H. cbn in H.
    repeat break_match; in_trace; cbn; auto.
  - intros project Hp Hpid Hv. unfold_handler. rewrite Hp, Hb, Hpid, Hs. cbn.
    rewrite Z.eqb_refl. cbn.
    apply Validate_None in Hv. rewrite Hs in Hv.
    destruct Hv as [-> | (-> & -> & _)]; cbn; try rewrite Hlen; cbn;
      repeat break_match; cbn; eauto.
  - intros oldKey Ho Hv. unfold_handler. rewrite Ho, Hb, Hs, Hlen. cbn.
    apply Validate_None in Hv. rewrite Hs in Hv.
    destruct Hv as [-> | (-> & -> & _)]; cbn; try rewrite Hlen; cbn;
      repeat break_match; cbn; eauto.
  - intros r' s' stored body' k err Ho Hst Hb' Hn H.
    unfold_handler in H. rewrite Ho, Hb' in H. cbn in H.
    unfold projects.nil_or_empty in Hn.
    destruct (db.AccessKey.Secret body') as [s0|]; [rewrite Hn in H|];
      repeat break_match; in_trace; cbn; auto.
Qed.

End Properties.

(** ** The handlers on the in-memory store *)

(** C1: [AddKey] on a valid aws key without a secret.  The body names the
    context project and passes validation, and the handler panics on the
    dereference of the nil [Secret] before it calls the store. *)
Example AddKey_cloud_key_without_secret_panics :
  KeyValidator.Validate Fixtures.aws_new = None /\
  db.AccessKey.Secret Fixtures.aws_new = None /\
  projects.AddKey (Fixtures.add_request Fixtures.aws_new) MemStore.initial
  = mkOutcome Panicked MemStore.initial [].
Proof. repeat split. Qed.

(** C3: [UpdateKey] on key 1 of project 7 with a body that names project 9.
    The key handed to the store carries project 9, and the handler signals
    success. *)
Example UpdateKey_hands_over_body_project :
  db.AccessKey.ProjectID MemStore.key1 = Some 7 /\
  exists k,
    hd_error (trace_of (projects.UpdateKey
                          (Fixtures.update_request Fixtures.aws_other_project)
                          MemStore.initial))
    = Some (StoreUpdateAccessKey k None) /\
    db.AccessKey.ProjectID k = Some 9 /\
    In (WriteHeader http.StatusNoContent)
       (trace_of (projects.UpdateKey
                    (Fixtures.update_request Fixtures.aws_other_project)
                    MemStore.initial)).
Proof.
  split; [reflexivity|]. eexists. split; [reflexivity|]. split; [reflexivity|].
  cbn. auto.
Qed.

(** C2 as stated fails: an update of type ssh without a secret does not carry
    the stored secret forward and does not succeed; it is answered 400 and
    the store is never called. *)
Lemma UpdateKey_ssh_without_secret_is_rejected :
  db.AccessKey.Secret Fixtures.ssh_no_secret = None /\
  rejected "SSH Secret empty" MemStore.initial
    (projects.UpdateKey (Fixtures.update_request Fixtures.ssh_no_secret)
                        MemStore.initial) /\
  (forall k err,
     ~ In (StoreUpdateAccessKey k err)
          (trace_of (projects.UpdateKey
                       (Fixtures.update_request Fixtures.ssh_no_secret)
                       MemStore.initial))) /\
  ~ In (WriteHeader http.StatusNoContent)
       (trace_of (projects.UpdateKey
                    (Fixtures.update_request Fixtures.ssh_no_secret)
                    MemStore.initial)).
Proof.
  split; [reflexivity|]. split; [repeat split|]. split.
  - intros k err H. cbn in H. in_trace.
  - intros H. cbn in H. in_trace.
Qed.


(** ** Instances of the theorems *)

(** An aws update without a secret on key 1. *)
Lemma update_without_secret_keeps_stored_secret_witness :
  let r := Fixtures.update_request Fixtures.aws_no_secret in
  let key' := db.AccessKey.with_Secret Fixtures.aws_no_secret
                (db.AccessKey.Secret MemStore.key1) in
  (exists err,
     hd_error (trace_of (projects.UpdateKey r MemStore.initial)) =
     Some (StoreUpdateAccessKey key' err)) /\
  (forall k err,
     In (StoreUpdateAccessKey k err)
        (trace_of (projects.UpdateKey r MemStore.initial)) ->
     k = key' /\
     db.AccessKey.Secret k = db.AccessKey.Secret MemStore.key1) /\
  (In (StoreUpdateAccessKey key' None)
      (trace_of (projects.UpdateKey r MemStore.initial)) ->
   (forall ev e,
      ~ In (StoreCreateEvent ev (db.Err e))
           (trace_of (projects.UpdateKey r MemStore.initial))) ->
   flow_of (projects.UpdateKey r MemStore.initial) = Next tt /\
   In (WriteHeader http.StatusNoContent)
      (trace_of (projects.UpdateKey r MemStore.initial))).
Proof.
  intros r key'.
  apply (update_without_secret_keeps_stored_secret
           r MemStore.initial MemStore.key1 Fixtures.aws_no_secret).
  - reflexivity.
  - reflexivity.
  - left. reflexivity.
  - left. reflexivity.
Defined.

(** An ssh key created with the secret ["abc"]. *)
Lemma fresh_secret_gets_one_newline_witness :
  exists res,
    hd_error (trace_of (projects.AddKey (Fixtures.add_request Fixtures.ssh_abc)
                                        MemStore.initial)) =
    Some (StoreCreateAccessKey
            (db.AccessKey.with_Secret Fixtures.ssh_abc (Some ("abc" ++ LF)))
            res).
Proof.
  destruct (fresh_secret_gets_one_newline
              (Fixtures.add_request Fixtures.ssh_abc) MemStore.initial
              Fixtures.ssh_abc "abc" eq_refl eq_refl)
    as (_ & _ & H & _).
  - discriminate.
  - apply (H MemStore.project7); reflexivity.
Defined.

(** A body of type ftp is refused by both handlers, and a body for project 9
    is refused under project 7. *)
Lemma validation_precedes_persistence_witness :
  rejected "Invalid key type" MemStore.initial
    (projects.UpdateKey (Fixtures.update_request Fixtures.ftp_key)
                        MemStore.initial) /\
  (rejected "Invalid key type" MemStore.initial
     (projects.AddKey (Fixtures.add_request Fixtures.ftp_key)
                      MemStore.initial) \/
   rejected "Project ID in body and URL must be the same" MemStore.initial
     (projects.AddKey (Fixtures.add_request Fixtures.ftp_key)
                      MemStore.initial)) /\
  rejected "Project ID in body and URL must be the same" MemStore.initial
    (projects.AddKey (Fixtures.add_request Fixtures.aws_other_project)
                     MemStore.initial).
Proof.
  split; [|split].
  - destruct (validation_precedes_persistence
                (Fixtures.update_request Fixtures.ftp_key) MemStore.initial
                Fixtures.ftp_key eq_refl) as [H _].
    destruct (H KeyValidator.InvalidType eq_refl) as [_ Hu].
    exact (Hu MemStore.key1 eq_refl).
  - destruct (validation_precedes_persistence
                (Fixtures.add_request Fixtures.ftp_key) MemStore.initial
                Fixtures.ftp_key eq_refl) as [H _].
    destruct (H KeyValidator.InvalidType eq_refl) as [Ha _].
    exact (Ha MemStore.project7 eq_refl).
  - destruct (validation_precedes_persistence
                (Fixtures.add_request Fixtures.aws_other_project)
                MemStore.initial Fixtures.aws_other_project eq_refl)
      as [_ H].
    apply (H MemStore.project7 eq_refl). discriminate.
Defined.

(** An update of key 1 of project 7 whose body names project 9. *)
Lemma update_event_names_previous_key_witness :
  In (StoreCreateEvent Fixtures.updated_event (db.Ok Fixtures.updated_event))
     (trace_of (projects.UpdateKey
                  (Fixtures.update_request Fixtures.aws_other_project)
                  MemStore.initial)) /\
  db.Event.ProjectID Fixtures.updated_event
  = db.AccessKey.ProjectID MemStore.key1 /\
  db.Event.ObjectID Fixtures.updated_event
  = Some (db.AccessKey.ID MemStore.key1).
Proof.
  destruct (update_event_names_previous_key
              (Fixtures.update_request Fixtures.aws_other_project)
              MemStore.initial MemStore.key1 eq_refl) as [H _].
  split; [cbn; auto|].
  apply (H Fixtures.updated_event (db.Ok Fixtures.updated_event)).
  cbn. auto.
Defined.

(** With the event log down, [AddKey] and [RemoveKey] still end on the 204
    header and [UpdateKey] ends on the log line. *)
Lemma audit_failure_asymmetry_witness :
  (exists key newKey,
     trace_of (projects.AddKey (Fixtures.add_request Fixtures.ssh_abc)
                               MemStore.events_down) =
     [StoreCreateAccessKey key (db.Ok newKey);
      StoreCreateEvent Fixtures.created_event (db.Err Fixtures.log_down);
      LogError Fixtures.log_down;
      WriteHeader http.StatusNoContent]) /\
  (exists projectID keyID,
     trace_of (projects.RemoveKey (Fixtures.remove_request [])
                                  MemStore.events_down) =
     [StoreDeleteAccessKeySoft projectID keyID None;
      StoreCreateEvent Fixtures.deleted_event (db.Err Fixtures.log_down);
      LogError Fixtures.log_down;
      WriteHeader http.StatusNoContent]) /\
  (flow_of (projects.UpdateKey (Fixtures.update_request Fixtures.aws_no_secret)
                               MemStore.events_down) = Returned /\
   no_response
     (trace_of (projects.UpdateKey (Fixtures.update_request Fixtures.aws_no_secret)
                                   MemStore.events_down)) = true /\
   exists key,
     trace_of (projects.UpdateKey (Fixtures.update_request Fixtures.aws_no_secret)
                                  MemStore.events_down) =
     [StoreUpdateAccessKey key None;
      StoreCreateEvent Fixtures.updated_event (db.Err Fixtures.log_down);
      LogError Fixtures.log_down]).
Proof.
  split; [|split].
  - destruct (audit_failure_asymmetry
                (Fixtures.add_request Fixtures.ssh_abc)
                MemStore.events_down Fixtures.created_event Fixtures.log_down)
      as (H & _ & _).
    apply H. cbn. auto.
  - destruct (audit_failure_asymmetry
                (Fixtures.remove_request [])
                MemStore.events_down Fixtures.deleted_event Fixtures.log_down)
      as (_ & H & _).
    apply H. cbn. auto.
  - destruct (audit_failure_asymmetry
                (Fixtures.update_request Fixtures.aws_no_secret)
                MemStore.events_down Fixtures.updated_event Fixtures.log_down)
      as (_ & _ & H).
    apply H. cbn. auto.
Defined.


(** A hard delete of key 1 while a template uses it. *)
Lemma hard_delete_in_use_conflict_witness :
  projects.RemoveKey (Fixtures.remove_request [("setRemoved", ["1"])])
                     MemStore.key1_in_use =
  mkOutcome Returned MemStore.key1_in_use
    [StoreDeleteAccessKey 7 1 (Some db.ErrInvalidOperation);
     WriteJSON http.StatusBadRequest
       [("error", JString "Inventory is in use by one or more templates");
        ("inUse", JBool true)]].
Proof.
  destruct (hard_delete_in_use_conflict
              (Fixtures.remove_request [("setRemoved", ["1"])])
              MemStore.key1_in_use MemStore.key1_in_use MemStore.key1 7)
    as [H _].
  - reflexivity.
  - reflexivity.
  - discriminate.
  - reflexivity.
  - exact H.
Defined.

(** [setRemoved=false] and [setRemoved=0] delete for good; [setRemoved=]
    does not. *)
Lemma delete_mode_by_setRemoved_witness :
  (exists err,
     hd_error (trace_of (projects.RemoveKey
                           (Fixtures.remove_request [("setRemoved", ["false"])])
                           MemStore.initial)) =
     Some (StoreDeleteAccessKey 7 1 err)) /\
  (exists err,
     hd_error (trace_of (projects.RemoveKey
                           (Fixtures.remove_request [("setRemoved", ["0"])])
                           MemStore.initial)) =
     Some (StoreDeleteAccessKey 7 1 err)) /\
  (exists err,
     hd_error (trace_of (projects.RemoveKey
                           (Fixtures.remove_request [("setRemoved", [""])])
                           MemStore.initial)) =
     Some (StoreDeleteAccessKeySoft 7 1 err)).
Proof.
  split; [|split].
  - destruct (delete_mode_by_setRemoved
                (Fixtures.remove_request [("setRemoved", ["false"])])
                MemStore.initial MemStore.key1 7 eq_refl eq_refl)
      as (_ & _ & _ & H).
    apply H. discriminate.
  - destruct (delete_mode_by_setRemoved
                (Fixtures.remove_request [("setRemoved", ["0"])])
                MemStore.initial MemStore.key1 7 eq_refl eq_refl)
      as (_ & _ & _ & H).
    apply H. discriminate.
  - destruct (delete_mode_by_setRemoved
                (Fixtures.remove_request [("setRemoved", [""])])
                MemStore.initial MemStore.key1 7 eq_refl eq_refl)
      as (_ & _ & H & _).
    apply H. reflexivity.
Defined.

(** ** Further properties of the handlers *)

Lemma error_eqb_eq (a b : db.error) :
  db.error_eqb a b = true <-> a = b.
Proof.
  destruct a, b; cbn; split; intros H; try reflexivity; try discriminate H.
  - apply String.eqb_eq in H. now subst.
  - injection H as ->. apply String.eqb_refl.
Qed.

Lemma Validate_passes (key : db.AccessKey.t) :
  String.eqb (db.AccessKey.Type_ key) "aws"
  || String.eqb (db.AccessKey.Type_ key) "gcloud"
  || String.eqb (db.AccessKey.Type_ key) "do" = true \/
  (String.eqb (db.AccessKey.Type_ key) "ssh" = true /\
   projects.nil_or_empty (db.AccessKey.Secret key) = false) ->
  KeyValidator.Validate key = None.
Proof.
  unfold KeyValidator.Validate, projects.nil_or_empty. cbn [existsb].
  destruct (String.eqb (db.AccessKey.Type_ key) "aws") eqn:Ea;
  destruct (String.eqb (db.AccessKey.Type_ key) "gcloud") eqn:Eg;
  destruct (String.eqb (db.AccessKey.Type_ key) "do") eqn:Ed;
  destruct (String.eqb (db.AccessKey.Type_ key) "ssh") eqn:Es; cbn;
  try (apply String.eqb_eq in Ea); try (apply String.eqb_eq in Es);
  try (apply String.eqb_eq in Eg); try (apply String.eqb_eq in Ed);
  try congruence; intros [H|[H1 H2]]; try discriminate; auto.
  destruct (db.AccessKey.Secret key) as [[|c t]|]; cbn in *;
    auto; discriminate.
Qed.

Section Failures.
Context {S : Type} {store : db.Store S}.

(** X1: when [CreateAccessKey] fails, [AddKey] answers with that error and
    returns: no audit event is written and no 204 header. *)
Theorem AddKey_store_failure (r : http.Request) (s : S)
        (key : db.AccessKey.t) (err : db.error) :
  In (StoreCreateAccessKey key (db.Err err)) (trace_of (projects.AddKey r s)) ->
  flow_of (projects.AddKey r s) = Returned /\
  trace_of (projects.AddKey r s) =
  [StoreCreateAccessKey key (db.Err err); WriteError err].
Proof.
  intros H. unfold_handler. unfold_handler in H. cbn in *.
  repeat break_match; in_trace; cbn; auto.
Qed.

(** X2: when [UpdateAccessKey] fails, [UpdateKey] answers with that error
    and returns: no audit event is written and no 204 header. *)
Theorem UpdateKey_store_failure (r : http.Request) (s : S)
        (key : db.AccessKey.t) (err : db.error) :
  In (StoreUpdateAccessKey key (Some err)) (trace_of (projects.UpdateKey r s)) ->
  flow_of (projects.UpdateKey r s) = Returned /\
  trace_of (projects.UpdateKey r s) =
  [StoreUpdateAccessKey key (Some err); WriteError err].
Proof.
  intros H. unfold_handler. unfold_handler in H. cbn in *.
  repeat break_match; in_trace; cbn; auto.
Qed.

(** X3: a failed delete is answered with the store's error and nothing
    else.  For a soft delete this holds for every error, the in-use error
    included; for a hard delete it holds for every error but the in-use
    one. *)
Theorem RemoveKey_store_failure (r : http.Request) (s : S)
        (projectID keyID : Z) (err : db.error) :
  (In (StoreDeleteAccessKeySoft projectID keyID (Some err))
      (trace_of (projects.RemoveKey r s)) ->
   flow_of (projects.RemoveKey r s) = Returned /\
   trace_of (projects.RemoveKey r s) =
   [StoreDeleteAccessKeySoft projectID keyID (Some err); WriteError err]) /\
  (In (StoreDeleteAccessKey projectID keyID (Some err))
      (trace_of (projects.RemoveKey r s)) ->
   err <> db.ErrInvalidOperation ->
   flow_of (projects.RemoveKey r s) = Returned /\
   trace_of (projects.RemoveKey r s) =
   [StoreDeleteAccessKey projectID keyID (Some err); WriteError err]).
Proof.
  split.
  - intros H. unfold_handler. unfold_handler in H. cbn in *.
    repeat break_match; in_trace; cbn; auto.
  - intros H Hne. unfold_handler. unfold_handler in H. cbn in *.
    repeat break_match; in_trace; cbn; auto.
    exfalso. apply Hne. now apply error_eqb_eq.
Qed.

(** X4: a body that does not decode ends the request at once: [AddKey] and
    [UpdateKey] return after the bind helper has answered, with no store
    call. *)
Theorem undecodable_body_is_dropped (r : http.Request) (s : S) :
  http.body r = None ->
  (forall project, http.ctx_project r = Some project ->
     projects.AddKey r s = mkOutcome Returned s [BindFailed]) /\
  (forall oldKey, http.ctx_accessKey r = Some oldKey ->
     projects.UpdateKey r s = mkOutcome Returned s [BindFailed]).
Proof.
  intros Hb. split.
  - intros project Hp. unfold_handler. now rewrite Hp, Hb.
  - intros oldKey Ho. unfold_handler. now rewrite Ho, Hb.
Qed.

(** X5: a handler that runs without the context entry its middleware sets
    panics on the type assertion, before it reads the body or calls the
    store. *)
Theorem missing_context_panics (r : http.Request) (s : S) :
  (http.ctx_project r = None ->
   projects.AddKey r s = mkOutcome Panicked s []) /\
  (http.ctx_accessKey r = None ->
   projects.UpdateKey r s = mkOutcome Panicked s [] /\
   projects.RemoveKey r s = mkOutcome Panicked s []).
Proof.
  split.
  - intros H. unfold_handler. now rewrite H.
  - intros H. split; unfold_handler; now rewrite H.
Qed.

(** X6: [RemoveKey] on a key whose ProjectID is nil panics on the
    dereference, in either mode, before the store is called. *)
Theorem RemoveKey_nil_project_panics (r : http.Request) (s : S)
        (key : db.AccessKey.t) :
  http.ctx_accessKey r = Some key ->
  db.AccessKey.ProjectID key = None ->
  projects.RemoveKey r s = mkOutcome Panicked s [].
Proof.
  intros Hk Hp. unfold_handler. rewrite Hk. cbn. rewrite Hp.
  destruct (Nat.eqb _ 0); reflexivity.
Qed.

(** X7: [RemoveKey] reads nothing of the request but the context key and
    the value of [setRemoved]: the body, the context project and every other
    query parameter are ignored. *)
Theorem RemoveKey_reads_key_and_setRemoved (r r' : http.Request) (s : S) :
  http.ctx_accessKey r = http.ctx_accessKey r' ->
  http.Get (http.query r) "setRemoved" = http.Get (http.query r') "setRemoved" ->
  projects.RemoveKey r s = projects.RemoveKey r' s.
Proof.
  intros Hk Hq. unfold projects.RemoveKey, projects.softDeletion.
  now rewrite Hk, Hq.
Qed.

(** X8: [UpdateKey] reads of the context key its Secret, ProjectID and ID
    only: the stored name and type are never consulted, so an update may
    rename the key and change its type. *)
Theorem UpdateKey_reads_of_old_key (r r' : http.Request) (s : S)
        (oldKey oldKey' : db.AccessKey.t) :
  http.ctx_accessKey r = Some oldKey ->
  http.ctx_accessKey r' = Some oldKey' ->
  http.body r = http.body r' ->
  db.AccessKey.Secret oldKey = db.AccessKey.Secret oldKey' ->
  db.AccessKey.ProjectID oldKey = db.AccessKey.ProjectID oldKey' ->
  db.AccessKey.ID oldKey = db.AccessKey.ID oldKey' ->
  projects.UpdateKey r s = projects.UpdateKey r' s.
Proof.
  intros Ho Ho' Hb Hs Hp Hi. unfold_handler.
  now rewrite Ho, Ho', Hb, Hs, Hp, Hi.
Qed.

(** X9: every handler writes to the response at most once. *)
Theorem at_most_one_response (r : http.Request) (s : S) :
  (length (responses (trace_of (projects.AddKey r s))) <= 1)%nat /\
  (length (responses (trace_of (projects.UpdateKey r s))) <= 1)%nat /\
  (length (responses (trace_of (projects.RemoveKey r s))) <= 1)%nat.
Proof.
  split; [|split]; unfold_handler; cbn;
    repeat break_match; cbn; auto.
Qed.

(** X10: the only header a handler writes is 204, and it writes it exactly
    when it runs to its last statement. *)
Theorem success_header_iff_completed (r : http.Request) (s : S) :
  completes_with_204 (projects.AddKey r s) /\
  completes_with_204 (projects.UpdateKey r s) /\
  completes_with_204 (projects.RemoveKey r s).
Proof.
  unfold completes_with_204.
  split; [|split]; unfold_handler; cbn; repeat break_match; cbn;
    (split; [split|]; intros; in_trace; try discriminate; auto 6).
Qed.

(** X11: an audit event is written only right after the key mutation of the
    same request succeeded, and it is the last store call of the request. *)
Theorem event_follows_successful_mutation (r : http.Request) (s : S) :
  event_after_mutation (trace_of (projects.AddKey r s)) /\
  event_after_mutation (trace_of (projects.UpdateKey r s)) /\
  event_after_mutation (trace_of (projects.RemoveKey r s)).
Proof.
  unfold event_after_mutation.
  split; [|split]; intros ev res H; unfold_handler; unfold_handler in H;
    cbn in *; repeat break_match; in_trace; cbn; eauto 10.
Qed.

(** X12: [AddKey] calls the store exactly for the bodies that name the
    context project, pass the validator and hold a secret pointer. *)
Theorem AddKey_reaches_store_iff (r : http.Request) (s : S) :
  (exists k res,
     In (StoreCreateAccessKey k res) (trace_of (projects.AddKey r s))) <->
  (exists project key secret,
     http.ctx_project r = Some project /\
     http.body r = Some key /\
     db.AccessKey.ProjectID key = Some (db.Project.ID project) /\
     KeyValidator.Validate key = None /\
     db.AccessKey.Secret key = Some secret).
Proof.
  split.
  - intros (k & res & H). unfold_handler in H. cbn in H.
    destruct (http.ctx_project r) as [project|]; cbn in H; [|in_trace].
    destruct (http.body r) as [key|]; cbn in H; [|in_trace].
    destruct (db.AccessKey.ProjectID key) as [p|] eqn:Hp; cbn in H; [|in_trace].
    destruct (Z.eqb_spec p (db.Project.ID project)) as [->|]; cbn in H;
      [|in_trace].
    destruct (db.AccessKey.Secret key) as [secret|] eqn:Hs.
    + exists project, key, secret. repeat split; auto.
      apply Validate_passes. rewrite Hs.
      destruct (_ || _); [now left|]. right.
      destruct (String.eqb (db.AccessKey.Type_ key) "ssh");
        [|exfalso; cbn in H; in_trace].
      destruct (projects.nil_or_empty (Some secret));
        [exfalso; cbn in H; in_trace|auto].
    + exfalso. repeat break_match; in_trace.
  - intros (project & key & secret & Hp & Hb & Hpid & Hv & Hs).
    unfold_handler. rewrite Hp, Hb, Hpid. cbn. rewrite Z.eqb_refl. cbn.
    apply Validate_None in Hv.
    destruct Hv as [-> | (-> & -> & ->)]; cbn; rewrite Hs; cbn;
      repeat break_match; cbn; eauto.
Qed.

(** X13: [UpdateKey] calls the store exactly for the bodies that pass the
    validator; the stored key and the body's identifiers play no part. *)
Theorem UpdateKey_reaches_store_iff (r : http.Request) (s : S) :
  (exists k err,
     In (StoreUpdateAccessKey k err) (trace_of (projects.UpdateKey r s))) <->
  (exists oldKey key,
     http.ctx_accessKey r = Some oldKey /\
     http.body r = Some key /\
     KeyValidator.Validate key = None).
Proof.
  split.
  - intros (k & err & H). unfold_handler in H. cbn in H.
    destruct (http.ctx_accessKey r) as [oldKey|]; cbn in H; [|in_trace].
    destruct (http.body r) as [key|]; cbn in H; [|in_trace].
    exists oldKey, key. repeat split.
    apply Validate_passes.
    destruct (_ || _); [now left|]. right.
    destruct (String.eqb (db.AccessKey.Type_ key) "ssh");
      [|exfalso; cbn in H; in_trace].
    destruct (projects.nil_or_empty (db.AccessKey.Secret key));
      [exfalso; cbn in H; in_trace|auto].
  - intros (oldKey & key & Ho & Hb & Hv).
    unfold_handler. rewrite Ho, Hb. cbn.
    apply Validate_None in Hv.
    destruct Hv as [-> | (-> & -> & ->)]; cbn;
      repeat break_match; cbn; eauto.
Qed.

(** X14: on creation an empty secret is no absent secret.  For a key of type
    aws, gcloud or do whose secret is the empty string [AddKey] stores a lone
    newline, where [UpdateKey] would keep the stored secret. *)
Theorem AddKey_empty_cloud_secret (r : http.Request) (s : S)
        (project : db.Project.t) (key : db.AccessKey.t) :
  http.ctx_project r = Some project ->
  http.body r = Some key ->
  db.AccessKey.ProjectID key = Some (db.Project.ID project) ->
  cloud_type (db.AccessKey.Type_ key) ->
  db.AccessKey.Secret key = Some "" ->
  exists res,
    hd_error (trace_of (projects.AddKey r s)) =
    Some (StoreCreateAccessKey (db.AccessKey.with_Secret key (Some LF)) res).
Proof.
  intros Hp Hb Hpid Hc Hs. apply cloud_type_eqb in Hc.
  unfold_handler. rewrite Hp, Hb, Hpid. cbn. rewrite Z.eqb_refl. cbn.
  rewrite Hc. cbn. rewrite Hs. cbn.
  repeat break_match; cbn; eauto.
Qed.

(** X15: what the audit events say.  The event of [AddKey] takes its
    ProjectID from the key the store returned and its text from the body's
    name; the event of [UpdateKey] is worded with the body's name, the new
    one; the event of [RemoveKey] takes ProjectID and name from the context
    key. *)
Theorem audit_event_text (r : http.Request) (s : S)
        (ev : db.Event.t) (res : db.result db.Event.t) :
  (In (StoreCreateEvent ev res) (trace_of (projects.AddKey r s)) ->
   exists key k newKey,
     http.body r = Some key /\
     In (StoreCreateAccessKey k (db.Ok newKey))
        (trace_of (projects.AddKey r s)) /\
     db.Event.ProjectID ev = db.AccessKey.ProjectID newKey /\
     db.Event.Description ev =
     Some ("Access Key " ++ db.AccessKey.Name key ++ " created")) /\
  (In (StoreCreateEvent ev res) (trace_of (projects.UpdateKey r s)) ->
   exists key,
     http.body r = Some key /\
     db.Event.Description ev =
     Some ("Access Key " ++ db.AccessKey.Name key ++ " updated")) /\
  (In (StoreCreateEvent ev res) (trace_of (projects.RemoveKey r s)) ->
   exists key,
     http.ctx_accessKey r = Some key /\
     db.Event.ProjectID ev = db.AccessKey.ProjectID key /\
     db.Event.Description ev =
     Some ("Access Key " ++ db.AccessKey.Name key ++ " deleted")).
Proof.
  split; [|split]; intros H; unfold_handler; unfold_handler in H; cbn in *.
  - repeat break_match; in_trace; cbn; eauto 10.
  - repeat break_match; in_trace; cbn; eauto 10.
  - repeat break_match; in_trace; cbn; eauto 10.
Qed.

(** X16: when a handler reports success.  [AddKey] and [RemoveKey] write
    the 204 header exactly when their key mutation succeeded, whatever
    became of the audit event; [UpdateKey] writes it exactly when both the
    update and the audit event went through. *)
Theorem success_iff_mutation (r : http.Request) (s : S) :
  (In (WriteHeader http.StatusNoContent) (trace_of (projects.AddKey r s)) <->
   exists k newKey,
     In (StoreCreateAccessKey k (db.Ok newKey))
        (trace_of (projects.AddKey r s))) /\
  (In (WriteHeader http.StatusNoContent) (trace_of (projects.RemoveKey r s)) <->
   exists p k,
     In (StoreDeleteAccessKeySoft p k None) (trace_of (projects.RemoveKey r s)) \/
     In (StoreDeleteAccessKey p k None) (trace_of (projects.RemoveKey r s))) /\
  (In (WriteHeader http.StatusNoContent) (trace_of (projects.UpdateKey r s)) <->
   exists k ev ev',
     In (StoreUpdateAccessKey k None) (trace_of (projects.UpdateKey r s)) /\
     In (StoreCreateEvent ev (db.Ok ev')) (trace_of (projects.UpdateKey r s))).
Proof.
  split; [|split]; unfold_handler; cbn; repeat break_match; cbn.
  all: split;
    [ intros H; in_trace; eauto 10
    | intros H; repeat match goal with
                       | H : exists _, _ |- _ => destruct H as [? H]
                       | H : _ /\ _ |- _ => destruct H as [? ?]
                       end; in_trace; auto 6 ].
Qed.

End Failures.

(** ** The reading side: [GetKeys] and [KeyMiddleware] *)

Ltac in_read_trace :=
  repeat match goal with
  | H : False |- _ => contradiction
  | H : _ \/ _ |- _ => destruct H as [H|H]
  | H : In _ _ |- _ => cbn in H
  | H : @eq read_effect _ _ |- _ => first [discriminate H | injection H as ?; subst]
  | H : @eq effect _ _ |- _ => first [discriminate H | injection H as ?; subst]
  end.

Section Reading.
Context {S : Type} {store : db.Store S} {reads : db_read.Store S}.
Variable desc : string.
Variable GetIntParam : string -> http.Request -> option Z.

(** With a key in the context, [GetKeys] answers with that key. *)
Lemma GetKeys_with_context_key (r : http.Request) (s : S)
      (key : db.AccessKey.t) :
  http.ctx_accessKey r = Some key ->
  projects.GetKeys desc r s = mkServed Returned s [WriteKey http.StatusOK key].
Proof.
  intros Hk. unfold projects.GetKeys. now rewrite Hk.
Qed.

(** X17: what [GetKeys] asks the store.  It asks only when the context holds
    no key, for the keys of the context project, sorted by the [sort]
    parameter, and inverted exactly when the [order] parameter equals the
    constant [desc]. *)
Theorem GetKeys_store_query (r : http.Request) (s : S) (projectID : Z)
        (params : db_read.RetrieveQueryParams)
        (res : db.result (list db.AccessKey.t)) :
  In (StoreGetAccessKeys projectID params res)
     (served_trace (projects.GetKeys desc r s)) ->
  http.ctx_accessKey r = None /\
  (exists project,
     http.ctx_project r = Some project /\
     projectID = db.Project.ID project) /\
  db_read.SortBy params = http.Get (http.query r) "sort" /\
  (db_read.SortInverted params = true <->
   http.Get (http.query r) "order" = desc).
Proof.
  unfold projects.GetKeys. intros H.
  repeat break_match; in_read_trace; cbn; repeat split; eauto;
    apply String.eqb_eq.
Qed.

(** X18: what [GetKeys] answers on the list path.  A list is written only
    with status 200 and is the list the store returned, as it returned it;
    a store error is passed to the error writer and no list is written. *)
Theorem GetKeys_answer (r : http.Request) (s : S) :
  (forall code keys,
     In (WriteKeys code keys) (served_trace (projects.GetKeys desc r s)) ->
     code = http.StatusOK /\
     exists projectID params,
       served_trace (projects.GetKeys desc r s) =
       [StoreGetAccessKeys projectID params (db.Ok keys);
        WriteKeys http.StatusOK keys]) /\
  (forall projectID params err,
     In (StoreGetAccessKeys projectID params (db.Err err))
        (served_trace (projects.GetKeys desc r s)) ->
     served_flow (projects.GetKeys desc r s) = Returned /\
     served_trace (projects.GetKeys desc r s) =
     [StoreGetAccessKeys projectID params (db.Err err);
      Effect (WriteError err)]).
Proof.
  unfold projects.GetKeys. split.
  - intros code keys H. repeat break_match; in_read_trace; cbn; eauto.
  - intros projectID params err H.
    repeat break_match; in_read_trace; cbn; eauto.
Qed.

(** X19: the middleware stops the request when the key cannot be loaded.
    With no usable [key_id] it returns without a store call; when the store
    does not find the key it writes the store's error; in both cases the
    wrapped handler is not run. *)
Theorem KeyMiddleware_stops_on_failure (next : Handler S)
        (r : http.Request) (s : S) (project : db.Project.t) :
  http.ctx_project r = Some project ->
  (GetIntParam "key_id" r = None ->
   projects.KeyMiddleware GetIntParam next r s =
   mkServed Returned s [GetIntParamFailed]) /\
  (forall keyID err s1,
     GetIntParam "key_id" r = Some keyID ->
     db_read.GetAccessKey (db.Project.ID project) keyID s = (db.Err err, s1) ->
     projects.KeyMiddleware GetIntParam next r s =
     mkServed Returned s1
       [StoreGetAccessKey (db.Project.ID project) keyID (db.Err err);
        Effect (WriteError err)]).
Proof.
  intros Hp. unfold projects.KeyMiddleware. rewrite Hp. split.
  - intros ->. reflexivity.
  - intros keyID err s1 -> ->. reflexivity.
Qed.

(** X20: [GetKeys] behind the middleware never lists.  Once the store has
    returned the key for the context project and [key_id], the answer is
    that single key with status 200, whatever the query says, and the store
    is not called again. *)
Theorem KeyMiddleware_GetKeys_single_key (r : http.Request) (s s1 : S)
        (project : db.Project.t) (keyID : Z) (key : db.AccessKey.t) :
  http.ctx_project r = Some project ->
  GetIntParam "key_id" r = Some keyID ->
  db_read.GetAccessKey (db.Project.ID project) keyID s = (db.Ok key, s1) ->
  projects.KeyMiddleware GetIntParam (projects.GetKeys desc) r s =
  mkServed (Next tt) s1
    [StoreGetAccessKey (db.Project.ID project) keyID (db.Ok key);
     WriteKey http.StatusOK key].
Proof.
  intros Hp Hi Hg. unfold projects.KeyMiddleware. rewrite Hp, Hi, Hg.
  rewrite (GetKeys_with_context_key _ s1 key) by reflexivity. reflexivity.
Qed.

(** X21: [UpdateKey] behind the middleware acts on the key the store
    returned: a key already in the context is replaced, the handler does not
    panic, and every audit event names the loaded key. *)
Theorem KeyMiddleware_UpdateKey_loaded_key (r : http.Request) (s s1 : S)
        (project : db.Project.t) (keyID : Z) (key : db.AccessKey.t) :
  http.ctx_project r = Some project ->
  GetIntParam "key_id" r = Some keyID ->
  db_read.GetAccessKey (db.Project.ID project) keyID s = (db.Ok key, s1) ->
  let o := projects.KeyMiddleware GetIntParam
             (HandlerFunc projects.UpdateKey) r s in
  served_flow o = Next tt /\
  hd_error (served_trace o) =
  Some (StoreGetAccessKey (db.Project.ID project) keyID (db.Ok key)) /\
  forall ev res,
    In (Effect (StoreCreateEvent ev res)) (served_trace o) ->
    db.Event.ProjectID ev = db.AccessKey.ProjectID key /\
    db.Event.ObjectID ev = Some (db.AccessKey.ID key).
Proof.
  intros Hp Hi Hg o. subst o.
  unfold projects.KeyMiddleware, HandlerFunc, projects.set_accessKey.
  rewrite Hp, Hi, Hg. unfold_handler. cbn.
  split; [|split].
  - repeat break_match; cbn; reflexivity.
  - repeat break_match; cbn; reflexivity.
  - intros ev res H. repeat break_match; in_read_trace; cbn; auto.
Qed.

(** X22: [RemoveKey] behind the middleware deletes the key the store
    returned: every delete call, soft or hard, carries the ProjectID and the
    ID of the loaded key. *)
Theorem KeyMiddleware_RemoveKey_loaded_key (r : http.Request) (s s1 : S)
        (project : db.Project.t) (keyID : Z) (key : db.AccessKey.t) :
  http.ctx_project r = Some project ->
  GetIntParam "key_id" r = Some keyID ->
  db_read.GetAccessKey (db.Project.ID project) keyID s = (db.Ok key, s1) ->
  let o := projects.KeyMiddleware GetIntParam
             (HandlerFunc projects.RemoveKey) r s in
  forall p k err,
    In (Effect (StoreDeleteAccessKeySoft p k err)) (served_trace o) \/
    In (Effect (StoreDeleteAccessKey p k err)) (served_trace o) ->
    db.AccessKey.ProjectID key = Some p /\ k = db.AccessKey.ID key.
Proof.
  intros Hp Hi Hg o p k err. subst o.
  unfold projects.KeyMiddleware, HandlerFunc, projects.set_accessKey.
  rewrite Hp, Hi, Hg. unfold_handler. cbn.
  intros H.
  repeat break_match; in_read_trace; cbn; auto.
Qed.

End Reading.

(** ** Instances of the further properties *)

(** A create against a store that is down. *)
Lemma AddKey_store_failure_witness :
  flow_of (projects.AddKey (Fixtures.add_request Fixtures.ssh_abc) tt)
  = Returned /\
  trace_of (projects.AddKey (Fixtures.add_request Fixtures.ssh_abc) tt) =
  [StoreCreateAccessKey
     (db.AccessKey.with_Secret Fixtures.ssh_abc (Some ("abc" ++ LF)))
     (db.Err DownStore.down);
   WriteError DownStore.down].
Proof.
  apply (AddKey_store_failure (Fixtures.add_request Fixtures.ssh_abc) tt).
  cbn. auto.
Defined.

(** An update against a store that is down. *)
Lemma UpdateKey_store_failure_witness :
  flow_of (projects.UpdateKey (Fixtures.update_request Fixtures.aws_no_secret) tt)
  = Returned /\
  trace_of (projects.UpdateKey (Fixtures.update_request Fixtures.aws_no_secret) tt) =
  [StoreUpdateAccessKey
     (db.AccessKey.with_Secret Fixtures.aws_no_secret (Some ("old" ++ LF)))
     (Some DownStore.down);
   WriteError DownStore.down].
Proof.
  apply (UpdateKey_store_failure
           (Fixtures.update_request Fixtures.aws_no_secret) tt).
  cbn. auto.
Defined.

(** A soft delete against a store that is down, and a hard delete of a key
    the in-memory store does not hold. *)
Lemma RemoveKey_store_failure_witness :
  trace_of (projects.RemoveKey (Fixtures.remove_request []) tt) =
  [StoreDeleteAccessKeySoft 7 1 (Some DownStore.down);
   WriteError DownStore.down] /\
  trace_of (projects.RemoveKey
              (Fixtures.remove_request_of Fixtures.ghost_key
                 [("setRemoved", ["1"])])
              MemStore.initial) =
  [StoreDeleteAccessKey 7 5 (Some db.ErrNotFound); WriteError db.ErrNotFound].
Proof.
  split.
  - destruct (RemoveKey_store_failure
                (Fixtures.remove_request []) tt 7 1 DownStore.down) as [H _].
    apply H. cbn. auto.
  - destruct (RemoveKey_store_failure
                (Fixtures.remove_request_of Fixtures.ghost_key
                   [("setRemoved", ["1"])])
                MemStore.initial 7 5 db.ErrNotFound) as [_ H].
    apply H.
    + cbn. auto.
    + discriminate.
Defined.

(** Requests whose body does not decode. *)
Lemma undecodable_body_is_dropped_witness :
  projects.AddKey Fixtures.add_without_body MemStore.initial
  = mkOutcome Returned MemStore.initial [BindFailed] /\
  projects.UpdateKey Fixtures.update_without_body MemStore.initial
  = mkOutcome Returned MemStore.initial [BindFailed].
Proof.
  split.
  - destruct (undecodable_body_is_dropped
                Fixtures.add_without_body MemStore.initial eq_refl) as [H _].
    exact (H MemStore.project7 eq_refl).
  - destruct (undecodable_body_is_dropped
                Fixtures.update_without_body MemStore.initial eq_refl)
      as [_ H].
    exact (H MemStore.key1 eq_refl).
Defined.

(** A request that reached the handlers past no middleware. *)
Lemma missing_context_panics_witness :
  projects.AddKey Fixtures.no_context MemStore.initial
  = mkOutcome Panicked MemStore.initial [] /\
  projects.UpdateKey Fixtures.no_context MemStore.initial
  = mkOutcome Panicked MemStore.initial [] /\
  projects.RemoveKey Fixtures.no_context MemStore.initial
  = mkOutcome Panicked MemStore.initial [].
Proof.
  destruct (missing_context_panics Fixtures.no_context MemStore.initial)
    as [Ha Hur].
  split; [exact (Ha eq_refl) | exact (Hur eq_refl)].
Defined.

(** A key that belongs to no project. *)
Lemma RemoveKey_nil_project_panics_witness :
  projects.RemoveKey
    (Fixtures.remove_request_of Fixtures.global_key [("setRemoved", ["1"])])
    MemStore.initial
  = mkOutcome Panicked MemStore.initial [].
Proof.
  apply (RemoveKey_nil_project_panics
           (Fixtures.remove_request_of Fixtures.global_key
              [("setRemoved", ["1"])])
           MemStore.initial Fixtures.global_key); reflexivity.
Defined.

(** The same delete with and without a body and a second parameter. *)
Lemma RemoveKey_reads_key_and_setRemoved_witness :
  projects.RemoveKey
    (http.mkRequest None (Some MemStore.key1) (Some Fixtures.ftp_key)
       [("force", ["yes"]); ("setRemoved", ["1"])])
    MemStore.initial
  = projects.RemoveKey (Fixtures.remove_request [("setRemoved", ["1"])])
      MemStore.initial.
Proof.
  apply RemoveKey_reads_key_and_setRemoved; reflexivity.
Defined.

(** The same update on two stored keys that differ in name, type and
    [Removed]. *)
Lemma UpdateKey_reads_of_old_key_witness :
  projects.UpdateKey (Fixtures.update_request Fixtures.renamed_ssh)
    MemStore.initial
  = projects.UpdateKey
      (http.mkRequest None (Some Fixtures.key1_retyped)
         (Some Fixtures.renamed_ssh) [("setRemoved", ["1"])])
      MemStore.initial.
Proof.
  apply (UpdateKey_reads_of_old_key _ _ MemStore.initial
           MemStore.key1 Fixtures.key1_retyped); reflexivity.
Defined.

(** An aws key created with the empty string for a secret. *)
Lemma AddKey_empty_cloud_secret_witness :
  exists res,
    hd_error (trace_of (projects.AddKey
                          (Fixtures.add_request Fixtures.aws_empty_secret)
                          MemStore.initial)) =
    Some (StoreCreateAccessKey
            (db.AccessKey.with_Secret Fixtures.aws_empty_secret (Some LF)) res).
Proof.
  apply (AddKey_empty_cloud_secret
           (Fixtures.add_request Fixtures.aws_empty_secret) MemStore.initial
           MemStore.project7 Fixtures.aws_empty_secret);
    try reflexivity.
  left. reflexivity.
Defined.

(** The texts of one create, one update and one delete. *)
Lemma audit_event_text_witness :
  (exists key k newKey,
     http.body (Fixtures.add_request Fixtures.ssh_abc) = Some key /\
     In (StoreCreateAccessKey k (db.Ok newKey))
        (trace_of (projects.AddKey (Fixtures.add_request Fixtures.ssh_abc)
                                   MemStore.initial)) /\
     db.Event.ProjectID Fixtures.created_event = db.AccessKey.ProjectID newKey /\
     db.Event.Description Fixtures.created_event =
     Some ("Access Key " ++ db.AccessKey.Name key ++ " created")) /\
  (exists key,
     http.body (Fixtures.update_request Fixtures.aws_no_secret) = Some key /\
     db.Event.Description Fixtures.updated_event =
     Some ("Access Key " ++ db.AccessKey.Name key ++ " updated")) /\
  (exists key,
     http.ctx_accessKey (Fixtures.remove_request []) = Some key /\
     db.Event.ProjectID Fixtures.deleted_event = db.AccessKey.ProjectID key /\
     db.Event.Description Fixtures.deleted_event =
     Some ("Access Key " ++ db.AccessKey.Name key ++ " deleted")).
Proof.
  split; [|split].
  - destruct (audit_event_text
                (Fixtures.add_request Fixtures.ssh_abc) MemStore.initial
                Fixtures.created_event (db.Ok Fixtures.created_event))
      as (H & _ & _).
    apply H. cbn. auto.
  - destruct (audit_event_text
                (Fixtures.update_request Fixtures.aws_no_secret)
                MemStore.initial
                Fixtures.updated_event (db.Ok Fixtures.updated_event))
      as (_ & H & _).
    apply H. cbn. auto.
  - destruct (audit_event_text
                (Fixtures.remove_request []) MemStore.initial
                Fixtures.deleted_event (db.Ok Fixtures.deleted_event))
      as (_ & _ & H).
    apply H. cbn. auto.
Defined.

(** A sorted, inverted listing of project 7. *)
Lemma GetKeys_store_query_witness :
  http.ctx_accessKey Fixtures.sorted_request = None /\
  (exists project,
     http.ctx_project Fixtures.sorted_request = Some project /\
     7 = db.Project.ID project) /\
  db_read.SortBy (db_read.mkParams "name" true) =
  http.Get (http.query Fixtures.sorted_request) "sort" /\
  (db_read.SortInverted (db_read.mkParams "name" true) = true <->
   http.Get (http.query Fixtures.sorted_request) "order" = "desc").
Proof.
  apply (GetKeys_store_query "desc" Fixtures.sorted_request MemStore.initial
           7 (db_read.mkParams "name" true) (db.Ok [MemStore.key1])).
  cbn. auto.
Defined.

(** The listing of project 7, and the same request against a store that is
    down. *)
Lemma GetKeys_answer_witness :
  (http.StatusOK = http.StatusOK /\
   exists projectID params,
     served_trace (projects.GetKeys "desc" Fixtures.sorted_request
                                    MemStore.initial) =
     [StoreGetAccessKeys projectID params (db.Ok [MemStore.key1]);
      WriteKeys http.StatusOK [MemStore.key1]]) /\
  (served_flow (projects.GetKeys "desc" Fixtures.sorted_request tt)
   = Returned /\
   served_trace (projects.GetKeys "desc" Fixtures.sorted_request tt) =
   [StoreGetAccessKeys 7 (db_read.mkParams "name" true)
      (db.Err DownStore.down);
    Effect (WriteError DownStore.down)]).
Proof.
  split.
  - destruct (GetKeys_answer "desc" Fixtures.sorted_request MemStore.initial)
      as [H _].
    apply H. cbn. auto.
  - destruct (GetKeys_answer "desc" Fixtures.sorted_request tt) as [_ H].
    apply H. cbn. auto.
Defined.

(** A URL without a usable key number, and the number of a key that is not
    stored. *)
Lemma KeyMiddleware_stops_on_failure_witness :
  projects.KeyMiddleware (Fixtures.key_id_param None)
    (HandlerFunc projects.RemoveKey) (Fixtures.project_request [])
    MemStore.initial
  = mkServed Returned MemStore.initial [GetIntParamFailed] /\
  projects.KeyMiddleware (Fixtures.key_id_param (Some 5))
    (HandlerFunc projects.RemoveKey) (Fixtures.project_request [])
    MemStore.initial
  = mkServed Returned MemStore.initial
      [StoreGetAccessKey 7 5 (db.Err db.ErrNotFound);
       Effect (WriteError db.ErrNotFound)].
Proof.
  split.
  - destruct (KeyMiddleware_stops_on_failure (Fixtures.key_id_param None)
                (HandlerFunc projects.RemoveKey) (Fixtures.project_request [])
                MemStore.initial MemStore.project7 eq_refl) as [H _].
    exact (H eq_refl).
  - destruct (KeyMiddleware_stops_on_failure (Fixtures.key_id_param (Some 5))
                (HandlerFunc projects.RemoveKey) (Fixtures.project_request [])
                MemStore.initial MemStore.project7 eq_refl) as [_ H].
    exact (H 5 db.ErrNotFound MemStore.initial eq_refl eq_refl).
Defined.

(** Key 1 fetched through the middleware with sort parameters in the
    query. *)
Lemma KeyMiddleware_GetKeys_single_key_witness :
  projects.KeyMiddleware (Fixtures.key_id_param (Some 1))
    (projects.GetKeys "desc") Fixtures.sorted_request MemStore.initial
  = mkServed (Next tt) MemStore.initial
      [StoreGetAccessKey 7 1 (db.Ok MemStore.key1);
       WriteKey http.StatusOK MemStore.key1].
Proof.
  apply (KeyMiddleware_GetKeys_single_key "desc"
           (Fixtures.key_id_param (Some 1)) Fixtures.sorted_request
           MemStore.initial MemStore.initial MemStore.project7 1 MemStore.key1);
    reflexivity.
Defined.

(** Key 1 updated through the middleware. *)
Lemma KeyMiddleware_UpdateKey_loaded_key_witness :
  let o := projects.KeyMiddleware (Fixtures.key_id_param (Some 1))
             (HandlerFunc projects.UpdateKey)
             (Fixtures.add_request Fixtures.aws_no_secret) MemStore.initial in
  served_flow o = Next tt /\
  hd_error (served_trace o) =
  Some (StoreGetAccessKey 7 1 (db.Ok MemStore.key1)) /\
  forall ev res,
    In (Effect (StoreCreateEvent ev res)) (served_trace o) ->
    db.Event.ProjectID ev = db.AccessKey.ProjectID MemStore.key1 /\
    db.Event.ObjectID ev = Some (db.AccessKey.ID MemStore.key1).
Proof.
  apply (KeyMiddleware_UpdateKey_loaded_key
           (Fixtures.key_id_param (Some 1))
           (Fixtures.add_request Fixtures.aws_no_secret)
           MemStore.initial MemStore.initial MemStore.project7 1 MemStore.key1);
    reflexivity.
Defined.

(** Key 1 soft-deleted through the middleware. *)
Lemma KeyMiddleware_RemoveKey_loaded_key_witness :
  In (Effect (StoreDeleteAccessKeySoft 7 1 None))
     (served_trace
        (projects.KeyMiddleware (Fixtures.key_id_param (Some 1))
           (HandlerFunc projects.RemoveKey) (Fixtures.project_request [])
           MemStore.initial)) /\
  db.AccessKey.ProjectID MemStore.key1 = Some 7 /\
  1 = db.AccessKey.ID MemStore.key1.
Proof.
  assert (H : In (Effect (StoreDeleteAccessKeySoft 7 1 None))
                 (served_trace
                    (projects.KeyMiddleware (Fixtures.key_id_param (Some 1))
                       (HandlerFunc projects.RemoveKey)
                       (Fixtures.project_request []) MemStore.initial)))
    by (cbn; auto).
  split; [exact H|].
  apply (KeyMiddleware_RemoveKey_loaded_key
           (Fixtures.key_id_param (Some 1)) (Fixtures.project_request [])
           MemStore.initial MemStore.initial MemStore.project7 1 MemStore.key1)
    with (err := None);
    [reflexivity | reflexivity | reflexivity | left; exact H].
Defined.
